(** * Meduzzen messenger: chat membership and message ledger

    A shallow embedding of [chat_operations.py] (with the table layouts of
    [models.py]) and the properties of the membership / authorization
    model stated for it.

    Conventions of the embedding.
    - The SQLAlchemy session is a record of tables; every table is the
      list of its rows in insertion order, so [Query.first()] is [find]
      and [db.add; db.commit] appends a row.
    - Integer columns are [Z]; autoincrement primary keys take the
      successor of the largest key in the table.
    - [func.now()] / [datetime.utcnow()] is the argument [now] of the
      operation that reads the clock.
    - Every operation returns its outcome together with the session it
      leaves behind; [raise HTTPException(...)] is the [Raise] outcome.
      Failures of the database itself (the [except Exception] arms) are
      outside the embedding: every commit succeeds, except the one of
      [add_token_to_blacklist], which the unique index on the token
      column can reject. *)

From Stdlib Require Import ZArith List String Ascii Bool Lia.
From Stdlib Require Import Sorting.Sorted Sorting.Permutation.
Import ListNotations.
Open Scope Z_scope.

(** ** Enums of [models.py] *)

Inductive ChatType := PRIVATE.
Inductive MessageType := TEXT | FILE | SYSTEM.
Inductive MemberRole := PARTICIPANT.
Inductive MemberStatus := ACTIVE | BLOCKED | LEFT.

Definition ChatType_eqb (a b : ChatType) : bool :=
  match a, b with PRIVATE, PRIVATE => true end.

Definition MemberStatus_eqb (a b : MemberStatus) : bool :=
  match a, b with
  | ACTIVE, ACTIVE | BLOCKED, BLOCKED | LEFT, LEFT => true
  | _, _ => false
  end.

(** ** Tables of [models.py] *)

Module User.
Record t := mk
  { id : Z; username : string; email : string; password : string }.
End User.

Module Chat.
Record t := mk
  { id : Z;
    name : option string;
    description : option string;
    chat_type : ChatType;
    creator_id : Z;
    recipient_id : Z;
    created_at : Z;
    is_active : bool }.
End Chat.

Module ChatMember.
Record t := mk
  { id : Z;
    user_id : Z;
    chat_id : Z;
    role : MemberRole;
    status : MemberStatus;
    joined_at : Z }.
End ChatMember.

Module Message.
Record t := mk
  { id : Z;
    content : string;
    message_type : MessageType;
    author_id : Z;
    chat_id : Z;
    created_at : Z;
    updated_at : option Z;
    is_deleted : bool }.
End Message.

Module FileAttachment.
Record t := mk
  { id : Z;
    filename : string;
    file_path : string;
    file_size : Z;
    mime_type : string;
    message_id : Z;
    uploaded_at : Z }.
End FileAttachment.

(** The session: the five tables the operations touch and the upload
    directory (path and byte count of every file written). *)
Record Session := mkSession
  { users : list User.t;
    chats : list Chat.t;
    chat_members : list ChatMember.t;
    messages : list Message.t;
    file_attachments : list FileAttachment.t;
    uploads : list (string * Z) }.

Definition set_chats (db : Session) (l : list Chat.t) : Session :=
  mkSession (users db) l (chat_members db) (messages db)
            (file_attachments db) (uploads db).

Definition set_chat_members (db : Session) (l : list ChatMember.t) : Session :=
  mkSession (users db) (chats db) l (messages db)
            (file_attachments db) (uploads db).

Definition set_messages (db : Session) (l : list Message.t) : Session :=
  mkSession (users db) (chats db) (chat_members db) l
            (file_attachments db) (uploads db).

Definition set_file_attachments (db : Session) (l : list FileAttachment.t)
  : Session :=
  mkSession (users db) (chats db) (chat_members db) (messages db)
            l (uploads db).

Definition set_uploads (db : Session) (l : list (string * Z)) : Session :=
  mkSession (users db) (chats db) (chat_members db) (messages db)
            (file_attachments db) l.

(** Autoincrement primary key. *)
Definition next_id (ids : list Z) : Z := 1 + fold_right Z.max 0 ids.

(** ** Exceptions *)

Record HTTPException := mkHTTPException
  { status_code : Z; detail : string }.

Definition HTTP_400_BAD_REQUEST : Z := 400.
Definition HTTP_403_FORBIDDEN : Z := 403.
Definition HTTP_404_NOT_FOUND : Z := 404.

Inductive result (A : Type) : Type :=
| Ok (a : A)
| Raise (e : HTTPException).
Arguments Ok {A} a.
Arguments Raise {A} e.

(** The error taxonomy of the interface, read off the status code.
    [InvalidRequest] and [InvalidState] are both answered with 400. *)
Definition NotFound (e : HTTPException) : Prop :=
  status_code e = HTTP_404_NOT_FOUND.
Definition Forbidden (e : HTTPException) : Prop :=
  status_code e = HTTP_403_FORBIDDEN.
Definition InvalidState (e : HTTPException) : Prop :=
  status_code e = HTTP_400_BAD_REQUEST.

(** ** Membership reconciler *)

(** The filter
    [ChatMember.chat_id == chat_id, ChatMember.user_id == user_id,
     ChatMember.status == MemberStatus.ACTIVE]
    shared by [_ensure_user_membership], [send_message] and
    [is_user_in_chat]. *)
Definition is_active_member (chat_id user_id : Z) (m : ChatMember.t) : bool :=
  (ChatMember.chat_id m =? chat_id)
  && (ChatMember.user_id m =? user_id)
  && MemberStatus_eqb (ChatMember.status m) ACTIVE.

Definition query_active_member (db : Session) (chat_id user_id : Z)
  : option ChatMember.t :=
  find (is_active_member chat_id user_id) (chat_members db).

Definition new_member (now : Z) (db : Session) (chat_id user_id : Z)
  : ChatMember.t :=
  ChatMember.mk (next_id (map ChatMember.id (chat_members db)))
                user_id chat_id PARTICIPANT ACTIVE now.

Definition _ensure_user_membership (now : Z) (db : Session)
           (chat_id user_id : Z) : Session :=
  match query_active_member db chat_id user_id with
  | Some _ => db
  | None =>
      set_chat_members db
        (chat_members db ++ [new_member now db chat_id user_id])
  end.

Definition get_chat (db : Session) (chat_id : Z) : option Chat.t :=
  find (fun c => Chat.id c =? chat_id) (chats db).

Definition is_user_in_chat (now : Z) (db : Session) (chat_id user_id : Z)
  : bool * Session :=
  match query_active_member db chat_id user_id with
  | Some _ => (true, db)
  | None =>
      match get_chat db chat_id with
      | None => (false, db)
      | Some chat =>
          if (Chat.creator_id chat =? user_id)
             || (Chat.recipient_id chat =? user_id)
          then (true, _ensure_user_membership now db chat_id user_id)
          else (false, db)
      end
  end.

(** ** Chat directory *)

Definition get_user (db : Session) (user_id : Z) : option User.t :=
  find (fun u => User.id u =? user_id) (users db).

(** The filter of the symmetric lookup, used by [create_private_chat] and
    [get_or_create_private_chat]. *)
Definition private_chat_between (a b : Z) (c : Chat.t) : bool :=
  (((Chat.creator_id c =? a) && (Chat.recipient_id c =? b))
   || ((Chat.creator_id c =? b) && (Chat.recipient_id c =? a)))
  && ChatType_eqb (Chat.chat_type c) PRIVATE.

Definition query_private_chat (db : Session) (a b : Z) : option Chat.t :=
  find (private_chat_between a b) (chats db).

Definition create_private_chat (now : Z) (db : Session)
           (creator_id recipient_id : Z) : result Chat.t * Session :=
  match get_user db recipient_id with
  | None =>
      (Raise (mkHTTPException HTTP_404_NOT_FOUND "Recipient user not found"),
       db)
  | Some _ =>
      if creator_id =? recipient_id then
        (Raise (mkHTTPException HTTP_400_BAD_REQUEST
                                "Cannot create chat with yourself"), db)
      else
        match query_private_chat db creator_id recipient_id with
        | Some existing_chat =>
            let db1 :=
              _ensure_user_membership now db (Chat.id existing_chat)
                                      creator_id in
            let db2 :=
              _ensure_user_membership now db1 (Chat.id existing_chat)
                                      recipient_id in
            (Ok existing_chat, db2)
        | None =>
            let chat :=
              Chat.mk (next_id (map Chat.id (chats db))) None None PRIVATE
                      creator_id recipient_id now true in
            let db1 := set_chats db (chats db ++ [chat]) in
            let key := next_id (map ChatMember.id (chat_members db1)) in
            let creator_member :=
              ChatMember.mk key creator_id (Chat.id chat)
                            PARTICIPANT ACTIVE now in
            let recipient_member :=
              ChatMember.mk (key + 1) recipient_id (Chat.id chat)
                            PARTICIPANT ACTIVE now in
            (Ok chat,
             set_chat_members db1
               (chat_members db1 ++ [creator_member; recipient_member]))
        end
  end.

Definition get_or_create_private_chat (now : Z) (db : Session)
           (user_id other_user_id : Z) : result Chat.t * Session :=
  match query_private_chat db user_id other_user_id with
  | Some existing_chat => (Ok existing_chat, db)
  | None => create_private_chat now db user_id other_user_id
  end.

(** ** Message ledger *)

(** The [message_data] dict: keys ["chat_id"], ["content"] and the
    optional ["message_type"]. *)
Module MessageData.
Record t := mk
  { chat_id : Z; content : string; message_type : option MessageType }.
End MessageData.

Definition send_message (now : Z) (db : Session)
           (message_data : MessageData.t) (author_id : Z)
  : result Message.t * Session :=
  let chat_id := MessageData.chat_id message_data in
  let '(member, db1) :=
    match query_active_member db chat_id author_id with
    | Some m => (Some m, db)
    | None =>
        match get_chat db chat_id with
        | Some chat =>
            if (Chat.creator_id chat =? author_id)
               || (Chat.recipient_id chat =? author_id)
            then
              let db1 :=
                _ensure_user_membership now db (Chat.id chat) author_id in
              (query_active_member db1 chat_id author_id, db1)
            else (None, db)
        | None => (None, db)
        end
    end in
  match member with
  | None =>
      (Raise (mkHTTPException HTTP_403_FORBIDDEN
                              "You are not a member of this chat"), db1)
  | Some _ =>
      let message :=
        Message.mk (next_id (map Message.id (messages db1)))
                   (MessageData.content message_data)
                   (match MessageData.message_type message_data with
                    | Some t => t
                    | None => TEXT
                    end)
                   author_id chat_id now None false in
      (Ok message, set_messages db1 (messages db1 ++ [message]))
  end.

Definition get_message (db : Session) (message_id : Z) : option Message.t :=
  find (fun m => Message.id m =? message_id) (messages db).

(** The UPDATE of the row loaded by [get_message]: the first row with
    that primary key is replaced. *)
Fixpoint update_message (message_id : Z) (m' : Message.t)
         (l : list Message.t) : list Message.t :=
  match l with
  | [] => []
  | m :: l' =>
      if Message.id m =? message_id then m' :: l'
      else m :: update_message message_id m' l'
  end.

Definition edit_message (now : Z) (db : Session) (message_id : Z)
           (new_content : string) (user_id : Z)
  : result Message.t * Session :=
  match get_message db message_id with
  | None =>
      (Raise (mkHTTPException HTTP_404_NOT_FOUND "Message not found"), db)
  | Some message =>
      if negb (Message.author_id message =? user_id) then
        (Raise (mkHTTPException HTTP_403_FORBIDDEN
                                "You can only edit your own messages"), db)
      else if Message.is_deleted message then
        (Raise (mkHTTPException HTTP_400_BAD_REQUEST
                                "Cannot edit deleted message"), db)
      else
        let message' :=
          Message.mk (Message.id message) new_content
                     (Message.message_type message)
                     (Message.author_id message) (Message.chat_id message)
                     (Message.created_at message) (Some now)
                     (Message.is_deleted message) in
        (Ok message',
         set_messages db (update_message message_id message' (messages db)))
  end.

(** [message.is_deleted = True; db.commit()].  When the flag changes the
    UPDATE also fires the [onupdate=func.now()] of [updated_at]; when the
    flag was already set the unit of work sees no change and writes
    nothing. *)
Definition delete_message (now : Z) (db : Session) (message_id user_id : Z)
  : result bool * Session :=
  match get_message db message_id with
  | None =>
      (Raise (mkHTTPException HTTP_404_NOT_FOUND "Message not found"), db)
  | Some message =>
      if negb (Message.author_id message =? user_id) then
        (Raise (mkHTTPException HTTP_403_FORBIDDEN
                                "You can only delete your own messages"), db)
      else
        let message' :=
          if Message.is_deleted message then message
          else
            Message.mk (Message.id message) (Message.content message)
                       (Message.message_type message)
                       (Message.author_id message) (Message.chat_id message)
                       (Message.created_at message) (Some now) true in
        (Ok true,
         set_messages db (update_message message_id message' (messages db)))
  end.

(** [ORDER BY created_at DESC]: a stable insertion sort, newest first. *)
Fixpoint insert_desc (m : Message.t) (l : list Message.t) : list Message.t :=
  match l with
  | [] => [m]
  | x :: l' =>
      if Message.created_at x <=? Message.created_at m then m :: x :: l'
      else x :: insert_desc m l'
  end.

Definition order_by_created_at_desc (l : list Message.t) : list Message.t :=
  fold_right insert_desc [] l.

(** [skip] and [limit] are row counts ([OFFSET] / [LIMIT]). *)
Definition get_chat_messages (db : Session) (chat_id : Z)
           (skip limit : nat) : list Message.t :=
  firstn limit
    (skipn skip
       (order_by_created_at_desc
          (filter (fun m => (Message.chat_id m =? chat_id)
                            && Bool.eqb (Message.is_deleted m) false)
                  (messages db)))).

(** The defaults of the signature: [skip = 0], [limit = 50]. *)
Definition get_chat_messages_default (db : Session) (chat_id : Z)
  : list Message.t :=
  get_chat_messages db chat_id 0%nat 50%nat.

(** ** Participants *)

Definition get_chat_participants (db : Session) (chat_id : Z)
  : list User.t :=
  let members :=
    filter (fun m => (ChatMember.chat_id m =? chat_id)
                     && MemberStatus_eqb (ChatMember.status m) ACTIVE)
           (chat_members db) in
  let user_ids := map ChatMember.user_id members in
  filter (fun u => existsb (Z.eqb (User.id u)) user_ids) (users db).

(** ** Attachment registrar *)

Definition UPLOAD_DIR : string := "uploads".
Definition MAX_FILE_SIZE : Z := 10 * 1024 * 1024.
Definition ALLOWED_EXTENSIONS : list string :=
  [".txt"; ".pdf"; ".doc"; ".docx"; ".jpg"; ".jpeg"; ".png"; ".gif"]%string.

(** The [UploadFile] argument: [size] and [content_type] are optional;
    [file] is the number of bytes the file object still yields, which is
    what [shutil.copyfileobj] writes. *)
Module UploadFile.
Record t := mk
  { filename : string;
    size : option Z;
    content_type : option string;
    file : Z }.
End UploadFile.

(** [str.rfind] of one character, with [i] the index of the head of [s]:
    the last index where [c] occurs, or [-1]. *)
Fixpoint rfind_from (c : ascii) (s : string) (i : Z) : Z :=
  match s with
  | EmptyString => -1
  | String a s' =>
      let r := rfind_from c s' (i + 1) in
      if 0 <=? r then r else if Ascii.eqb a c then i else -1
  end.

Definition rfind (c : ascii) (s : string) : Z := rfind_from c s 0.

(** The loop of [genericpath._splitext] that skips leading dots: [n]
    iterations remain from [filenameIndex]; [true] when a character other
    than the dot is met. *)
Fixpoint has_stem (p : string) (filenameIndex n : nat) : bool :=
  match n with
  | O => false
  | S n' =>
      match String.get filenameIndex p with
      | Some "."%char => has_stem p (S filenameIndex) n'
      | _ => true
      end
  end.

(** [os.path.splitext] (posix: separator [/], extension separator [.]). *)
Definition splitext (p : string) : string * string :=
  let sepIndex := rfind "/"%char p in
  let dotIndex := rfind "."%char p in
  if (sepIndex <? dotIndex)
     && has_stem p (Z.to_nat (sepIndex + 1))
                 (Z.to_nat (dotIndex - (sepIndex + 1)))
  then (String.substring 0 (Z.to_nat dotIndex) p,
        String.substring (Z.to_nat dotIndex)
                         (String.length p - Z.to_nat dotIndex) p)
  else (p, EmptyString).

Definition lower_ascii (c : ascii) : ascii :=
  let n := nat_of_ascii c in
  if ((65 <=? n) && (n <=? 90))%nat then ascii_of_nat (n + 32) else c.

(** [str.lower] on the ASCII letters; other bytes are kept.  The
    entries of [ALLOWED_EXTENSIONS] are ASCII and contain no [k], the
    only ASCII letter that a non-ASCII character lowers to, so membership
    in the allow-list is decided as by the full [str.lower]. *)
Fixpoint lower (s : string) : string :=
  match s with
  | EmptyString => EmptyString
  | String c s' => String (lower_ascii c) (lower s')
  end.

Definition file_extension (filename : string) : string :=
  lower (snd (splitext filename)).

Definition allowed_extension (ext : string) : bool :=
  existsb (String.eqb ext) ALLOWED_EXTENSIONS.

(** [os.path.join] of two components (posix). *)
Definition os_path_join (a b : string) : string :=
  match b with
  | String "/"%char _ => b
  | _ => (a ++ "/" ++ b)%string
  end.

(** [open(path, "wb")] followed by copying [n] bytes, and
    [os.path.getsize]. *)
Definition write_file (path : string) (n : Z) (fs : list (string * Z))
  : list (string * Z) :=
  (path, n) :: filter (fun e => negb (String.eqb (fst e) path)) fs.

Definition getsize (path : string) (fs : list (string * Z)) : Z :=
  match find (fun e => String.eqb (fst e) path) fs with
  | Some e => snd e
  | None => 0
  end.

(** [timestamp] is [datetime.utcnow().strftime("%Y%m%d_%H%M%S")]. *)
Definition upload_file (now : Z) (timestamp : string) (db : Session)
           (file : UploadFile.t) (message_id : Z)
  : result FileAttachment.t * Session :=
  if match UploadFile.size file with
     | Some s => negb (s =? 0) && (MAX_FILE_SIZE <? s)
     | None => false
     end
  then
    (Raise (mkHTTPException HTTP_400_BAD_REQUEST
                            "File size exceeds maximum allowed size"), db)
  else if negb (allowed_extension (file_extension (UploadFile.filename file)))
  then
    (Raise (mkHTTPException HTTP_400_BAD_REQUEST "File type not allowed"), db)
  else
    let safe_filename :=
      (timestamp ++ "_" ++ UploadFile.filename file)%string in
    let file_path := os_path_join UPLOAD_DIR safe_filename in
    let db1 :=
      set_uploads db (write_file file_path (UploadFile.file file)
                                 (uploads db)) in
    let attachment :=
      FileAttachment.mk
        (next_id (map FileAttachment.id (file_attachments db1)))
        (UploadFile.filename file)
        file_path
        (getsize file_path (uploads db1))
        (match UploadFile.content_type file with
         | Some (String c s) => String c s
         | _ => "application/octet-stream"%string
         end)
        message_id now in
    (Ok attachment,
     set_file_attachments db1 (file_attachments db1 ++ [attachment])).

(** ** Further operations of [chat_operations.py] *)

(** The [role] argument is accepted and not used: the row is always a
    PARTICIPANT.  The lookup does not filter on the status. *)
Definition add_member_to_chat (now : Z) (db : Session)
           (chat_id user_id : Z) (role : string)
  : result ChatMember.t * Session :=
  match find (fun m => (ChatMember.chat_id m =? chat_id)
                       && (ChatMember.user_id m =? user_id))
             (chat_members db) with
  | Some _ =>
      (Raise (mkHTTPException HTTP_400_BAD_REQUEST
                              "User is already a member of this chat"), db)
  | None =>
      let member :=
        ChatMember.mk (next_id (map ChatMember.id (chat_members db)))
                      user_id chat_id PARTICIPANT ACTIVE now in
      (Ok member, set_chat_members db (chat_members db ++ [member]))
  end.

(** The body of the two repair loops ([get_user_chats] and the startup
    hook): the creator first, then the recipient. *)
Definition ensure_chat_parties (now : Z) (db : Session) (chat : Chat.t)
  : Session :=
  _ensure_user_membership now
    (_ensure_user_membership now db (Chat.id chat) (Chat.creator_id chat))
    (Chat.id chat) (Chat.recipient_id chat).

(** The two id sets are only tested for emptiness and membership, so
    their union is kept as the concatenation of the two id lists. *)
Definition get_user_chats (now : Z) (db : Session) (user_id : Z)
  : list Chat.t * Session :=
  let member_rows :=
    filter (fun m => (ChatMember.user_id m =? user_id)
                     && MemberStatus_eqb (ChatMember.status m) ACTIVE)
           (chat_members db) in
  let member_chat_ids := map ChatMember.chat_id member_rows in
  let implicit_chats :=
    filter (fun c => (Chat.creator_id c =? user_id)
                     || (Chat.recipient_id c =? user_id))
           (chats db) in
  let implicit_chat_ids := map Chat.id implicit_chats in
  let db1 := fold_left (ensure_chat_parties now) implicit_chats db in
  let all_chat_ids := member_chat_ids ++ implicit_chat_ids in
  match all_chat_ids with
  | [] => ([], db1)
  | _ :: _ =>
      (filter (fun c => existsb (Z.eqb (Chat.id c)) all_chat_ids)
              (chats db1),
       db1)
  end.

(** ** Entry points of [main.py] *)

(** The startup hook of [lifespan]: every stored chat is repaired. *)
Definition lifespan_startup (now : Z) (db : Session) : Session :=
  fold_left (ensure_chat_parties now) (chats db) db.

Module MessageCreate.
Record t := mk
  { content : string; message_type : MessageType; chat_id : Z }.
End MessageCreate.

(** [current_user] is the user resolved by the authentication
    dependency.  The [chat_id] of the path replaces the one of the
    body. *)
Definition send_message_endpoint (now : Z) (db : Session) (chat_id : Z)
           (message : MessageCreate.t) (current_user : User.t)
  : result Message.t * Session :=
  let '(is_member, db1) :=
    is_user_in_chat now db chat_id (User.id current_user) in
  if negb is_member then
    (Raise (mkHTTPException HTTP_403_FORBIDDEN
                            "You are not a member of this chat"), db1)
  else
    let message_data :=
      MessageData.mk chat_id (MessageCreate.content message)
                     (Some (MessageCreate.message_type message)) in
    send_message now db1 message_data (User.id current_user).

Definition get_chat_participants_endpoint (now : Z) (db : Session)
           (chat_id : Z) (current_user : User.t)
  : result (list User.t) * Session :=
  let '(is_member, db1) :=
    is_user_in_chat now db chat_id (User.id current_user) in
  if negb is_member then
    (Raise (mkHTTPException HTTP_403_FORBIDDEN
                            "You are not a member of this chat"), db1)
  else (Ok (get_chat_participants db1 chat_id), db1).

Definition get_chat_messages_endpoint (now : Z) (db : Session)
           (chat_id : Z) (skip limit : nat) (current_user : User.t)
  : result (list Message.t) * Session :=
  let '(is_member, db1) :=
    is_user_in_chat now db chat_id (User.id current_user) in
  if negb is_member then
    (Raise (mkHTTPException HTTP_403_FORBIDDEN
                            "You are not a member of this chat"), db1)
  else (Ok (get_chat_messages db1 chat_id skip limit), db1).

Module UserCreate.
Record t := mk { username : string; email : string; password : string }.
End UserCreate.

Definition set_users (db : Session) (l : list User.t) : Session :=
  mkSession l (chats db) (chat_members db) (messages db)
            (file_attachments db) (uploads db).

(** [pwd_hash] is [pwd_context.hash] of the bcrypt context. *)
Definition register (pwd_hash : string -> string) (db : Session)
           (user : UserCreate.t) : result User.t * Session :=
  match find (fun u => String.eqb (User.email u) (UserCreate.email user))
             (users db) with
  | Some _ =>
      (Raise (mkHTTPException HTTP_400_BAD_REQUEST
                              "Email already registered"), db)
  | None =>
      match find (fun u => String.eqb (User.username u)
                                      (UserCreate.username user))
                 (users db) with
      | Some _ =>
          (Raise (mkHTTPException HTTP_400_BAD_REQUEST
                                  "Username already taken"), db)
      | None =>
          let db_user :=
            User.mk (next_id (map User.id (users db)))
                    (UserCreate.username user) (UserCreate.email user)
                    (pwd_hash (UserCreate.password user)) in
          (Ok db_user, set_users db (users db ++ [db_user]))
      end
  end.

(** ** Token authority ([auth.py]) *)

Module BlacklistedToken.
Record t := mk
  { id : Z; token : string; blacklisted_at : Z; expires_at : Z }.
End BlacklistedToken.

(** The claims of a decoded token that the code reads. *)
Module Payload.
Record t := mk { sub : option string; exp : option Z }.
End Payload.

(** The session seen by [auth.py]: the tables above and the revocation
    table. *)
Record AuthSession := mkAuthSession
  { tables : Session;
    blacklisted_tokens : list BlacklistedToken.t }.

Definition HTTP_401_UNAUTHORIZED : Z := 401.

Definition is_token_blacklisted (token : string) (db : AuthSession) : bool :=
  match find (fun b => String.eqb (BlacklistedToken.token b) token)
             (blacklisted_tokens db) with
  | Some _ => true
  | None => false
  end.

(** [jwt_decode] is [jwt.decode(token, SECRET_KEY, algorithms=[ALGORITHM])]
    at the time of the call, with [None] for a [JWTError]. *)
Definition verify_token (jwt_decode : string -> option Payload.t)
           (token : string) (db : AuthSession) : option Payload.t :=
  if is_token_blacklisted token db then None
  else
    match jwt_decode token with
    | None => None
    | Some payload =>
        match Payload.sub payload with
        | None => None
        | Some _ => Some payload
        end
    end.

(** The outcome of a commit that a unique index can reject. *)
Inductive commit_outcome :=
| Committed (db : AuthSession)
| IntegrityError.

(** Times are seconds; the [token] column is [unique=True]. *)
Definition add_token_to_blacklist (now : Z)
           (jwt_decode : string -> option Payload.t)
           (token : string) (db : AuthSession) : commit_outcome :=
  let expires_at :=
    match jwt_decode token with
    | Some payload =>
        match Payload.exp payload with
        | Some exp_timestamp =>
            if exp_timestamp =? 0 then now + 3600 else exp_timestamp
        | None => now + 3600
        end
    | None => now + 3600
    end in
  let blacklisted_token :=
    BlacklistedToken.mk
      (next_id (map BlacklistedToken.id (blacklisted_tokens db)))
      token now expires_at in
  if existsb (fun b => String.eqb (BlacklistedToken.token b) token)
             (blacklisted_tokens db)
  then IntegrityError
  else Committed (mkAuthSession (tables db)
                                (blacklisted_tokens db
                                 ++ [blacklisted_token])).

Definition credentials_exception : HTTPException :=
  mkHTTPException HTTP_401_UNAUTHORIZED "Could not validate credentials".

Definition get_current_user (jwt_decode : string -> option Payload.t)
           (token : string) (db : AuthSession) : result User.t :=
  match verify_token jwt_decode token db with
  | None => Raise credentials_exception
  | Some payload =>
      match Payload.sub payload with
      | None => Raise credentials_exception
      | Some username =>
          match find (fun u => String.eqb (User.email u) username)
                     (users (tables db)) with
          | None => Raise credentials_exception
          | Some user => Ok user
          end
      end
  end.

(** The two sources of [get_user_chats]: the chat ids of the ACTIVE rows
    of a user, and the chats the user is a party of. *)
Definition active_chat_ids (db : Session) (user_id : Z) : list Z :=
  map ChatMember.chat_id
      (filter (fun m => (ChatMember.user_id m =? user_id)
                        && MemberStatus_eqb (ChatMember.status m) ACTIVE)
              (chat_members db)).

Definition party_chats (db : Session) (user_id : Z) : list Chat.t :=
  filter (fun c => (Chat.creator_id c =? user_id)
                   || (Chat.recipient_id c =? user_id))
         (chats db).

(** ** Invariants of the tables *)

(** Every membership row belongs to a stored chat. *)
Definition members_reference_chats (db : Session) : Prop :=
  forall m, In m (chat_members db) ->
            In (ChatMember.chat_id m) (map Chat.id (chats db)).

(** Both parties of every stored chat hold an ACTIVE row. *)
Definition parties_are_members (db : Session) : Prop :=
  forall chat, In chat (chats db) ->
    (exists m, query_active_member db (Chat.id chat) (Chat.creator_id chat)
               = Some m)
    /\ (exists m, query_active_member db (Chat.id chat)
                                      (Chat.recipient_id chat) = Some m).

(** Primary key of the message table. *)
Definition message_ids_unique (db : Session) : Prop :=
  NoDup (map Message.id (messages db)).

(** The unique indexes of the user table. *)
Definition users_unique (db : Session) : Prop :=
  NoDup (map User.email (users db)) /\ NoDup (map User.username (users db)).

(** ** Predicates of the statements *)

(** What [is_user_in_chat] answers, as a function of the session it is
    asked in. *)
Definition member_view (db : Session) (chat_id user_id : Z) : bool :=
  match query_active_member db chat_id user_id with
  | Some _ => true
  | None =>
      match get_chat db chat_id with
      | Some chat =>
          (Chat.creator_id chat =? user_id)
          || (Chat.recipient_id chat =? user_id)
      | None => false
      end
  end.

(** The ACTIVE rows of one user in one chat. *)
Definition active_rows (db : Session) (chat_id user_id : Z)
  : list ChatMember.t :=
  filter (is_active_member chat_id user_id) (chat_members db).

(** The membership invariant: at most one ACTIVE row per (chat, user). *)
Definition at_most_one_active (db : Session) : Prop :=
  forall chat_id user_id,
    (List.length (active_rows db chat_id user_id) <= 1)%nat.

(** Number of PRIVATE chats between an unordered pair of users. *)
Definition private_chat_count (db : Session) (a b : Z) : nat :=
  List.length (filter (private_chat_between a b) (chats db)).

(** Newest first. *)
Definition newer_or_equal (x y : Message.t) : Prop :=
  Message.created_at y <= Message.created_at x.


(** ** Sample sessions *)

Definition alice : User.t := User.mk 1 "alice" "alice@example.com" "$2b$12$a".
Definition bob : User.t := User.mk 2 "bob" "bob@example.com" "$2b$12$b".
Definition carol : User.t := User.mk 3 "carol" "carol@example.com" "$2b$12$c".

(** Three registered users, nothing else. *)
Definition fresh_session : Session :=
  mkSession [alice; bob; carol] [] [] [] [] [].

(** A chat row of alice and bob written before membership rows existed. *)
Definition legacy_chat : Chat.t :=
  Chat.mk 1 None None PRIVATE 1 2 100 true.

Definition legacy_session : Session :=
  mkSession [alice; bob; carol] [legacy_chat] [] [] [] [].

(** The same chat with both membership rows, a message of alice and a
    message of alice that was soft-deleted. *)
Definition greeting : Message.t :=
  Message.mk 1 "hi" TEXT 1 1 110 None false.

Definition retracted : Message.t :=
  Message.mk 2 "oops" TEXT 1 1 120 (Some 125) true.

Definition ledger_session : Session :=
  mkSession [alice; bob; carol] [legacy_chat]
            [ChatMember.mk 1 1 1 PARTICIPANT ACTIVE 100;
             ChatMember.mk 2 2 1 PARTICIPANT ACTIVE 100]
            [greeting; retracted] [] [].


Definition small_upload : UploadFile.t :=
  UploadFile.mk "Notes.TXT" (Some 12) None 12.

(** A session of the token authority with nothing revoked, a decoder
    that knows two tokens, and a registration form. *)
Definition revocation_session : AuthSession :=
  mkAuthSession fresh_session [].

Definition sample_decode (token : string) : option Payload.t :=
  if String.eqb token "alice-token" then
    Some (Payload.mk (Some "alice@example.com"%string) (Some 2000))
  else if String.eqb token "bob-token" then
    Some (Payload.mk (Some "bob@example.com"%string) (Some 2000))
  else None.

Definition dave_form : UserCreate.t :=
  UserCreate.mk "dave" "dave@example.com" "secret".

Definition sample_hash (password : string) : string := "$2b$12$d".

Example splitext_plain : splitext "report.PDF" = ("report", ".PDF")%string.
Proof. reflexivity. Qed.

Example splitext_hidden : splitext ".bashrc" = (".bashrc", "")%string.
Proof. reflexivity. Qed.

Example splitext_dir : splitext "a.b/c" = ("a.b/c", "")%string.
Proof. reflexivity. Qed.

Example splitext_two : splitext "x/..a.tar.gz" = ("x/..a.tar", ".gz")%string.
Proof. reflexivity. Qed.

Example file_extension_upper : file_extension "Photo.JPG" = ".jpg"%string.
Proof. reflexivity. Qed.

(** * Properties *)

(** ** Queries over tables *)

Lemma find_app {A} (p : A -> bool) (l l' : list A) :
  find p (l ++ l') =
  match find p l with Some x => Some x | None => find p l' end.
Proof.
  induction l as [|x l IH]; simpl; [reflexivity|].
  destruct (p x); [reflexivity | exact IH].
Qed.

Lemma find_pointwise {A} (p q : A -> bool) (l : list A) :
  (forall x, p x = q x) -> find p l = find q l.
Proof.
  intros H. induction l as [|x l IH]; simpl; [reflexivity|].
  now rewrite H, IH.
Qed.

Lemma find_none_filter {A} (p : A -> bool) (l : list A) :
  find p l = None -> filter p l = [].
Proof.
  induction l as [|x l IH]; simpl; [reflexivity|].
  destruct (p x); [discriminate | exact IH].
Qed.

Lemma find_some_holds {A} (p : A -> bool) (l : list A) (x : A) :
  find p l = Some x -> p x = true.
Proof. intros H. apply find_some in H. tauto. Qed.

Lemma is_active_member_new now db chat_id user_id :
  is_active_member chat_id user_id (new_member now db chat_id user_id) = true.
Proof.
  unfold is_active_member, new_member; simpl.
  now rewrite !Z.eqb_refl.
Qed.

Lemma is_active_member_inj c u c' u' m :
  is_active_member c u m = true ->
  is_active_member c' u' m = true ->
  c = c' /\ u = u'.
Proof.
  unfold is_active_member.
  rewrite !andb_true_iff, !Z.eqb_eq. intuition congruence.
Qed.

(** ** Membership reconciler *)

Lemma ensure_present now db chat_id user_id m :
  query_active_member db chat_id user_id = Some m ->
  _ensure_user_membership now db chat_id user_id = db.
Proof. unfold _ensure_user_membership. now intros ->. Qed.

Lemma ensure_absent now db chat_id user_id :
  query_active_member db chat_id user_id = None ->
  _ensure_user_membership now db chat_id user_id =
  set_chat_members db
    (chat_members db ++ [new_member now db chat_id user_id]).
Proof. unfold _ensure_user_membership. now intros ->. Qed.

Lemma ensure_then_query now db chat_id user_id :
  exists m,
    query_active_member (_ensure_user_membership now db chat_id user_id)
                        chat_id user_id = Some m.
Proof.
  destruct (query_active_member db chat_id user_id) as [m|] eqn:E.
  - exists m. now rewrite (ensure_present _ _ _ _ _ E).
  - exists (new_member now db chat_id user_id).
    rewrite (ensure_absent _ _ _ _ E).
    unfold query_active_member in *; simpl.
    rewrite find_app, E; simpl.
    now rewrite is_active_member_new.
Qed.

Lemma ensure_idempotent now now' db chat_id user_id :
  let db' := _ensure_user_membership now db chat_id user_id in
  _ensure_user_membership now' db' chat_id user_id = db'.
Proof.
  intros db'.
  destruct (ensure_then_query now db chat_id user_id) as [m Hm].
  exact (ensure_present _ _ _ _ _ Hm).
Qed.


Lemma active_rows_ensure_other now db chat_id user_id c u :
  (c, u) <> (chat_id, user_id) ->
  active_rows (_ensure_user_membership now db chat_id user_id) c u =
  active_rows db c u.
Proof.
  intros Hne. unfold _ensure_user_membership.
  destruct (query_active_member db chat_id user_id); [reflexivity|].
  unfold active_rows; simpl. rewrite filter_app; simpl.
  destruct (is_active_member c u (new_member now db chat_id user_id)) eqn:E.
  - exfalso. apply Hne.
    destruct (is_active_member_inj _ _ _ _ _ E
                (is_active_member_new now db chat_id user_id)).
    congruence.
  - apply app_nil_r.
Qed.

Lemma active_rows_ensure_absent now db chat_id user_id :
  query_active_member db chat_id user_id = None ->
  active_rows (_ensure_user_membership now db chat_id user_id)
              chat_id user_id = [new_member now db chat_id user_id].
Proof.
  intros E. rewrite (ensure_absent _ _ _ _ E).
  unfold active_rows; simpl. rewrite filter_app; simpl.
  rewrite is_active_member_new.
  unfold query_active_member in E. now rewrite (find_none_filter _ _ E).
Qed.


(** ** Membership check *)

Lemma implicit_member_test (c : Chat.t) (u : Z) :
  Chat.creator_id c = u \/ Chat.recipient_id c = u ->
  (Chat.creator_id c =? u) || (Chat.recipient_id c =? u) = true.
Proof.
  intros [<-|<-]; rewrite Z.eqb_refl; [reflexivity | apply orb_true_r].
Qed.

Lemma is_user_in_chat_explicit now db chat_id user_id m :
  query_active_member db chat_id user_id = Some m ->
  is_user_in_chat now db chat_id user_id = (true, db).
Proof. unfold is_user_in_chat. now intros ->. Qed.

Lemma is_user_in_chat_view now db chat_id user_id :
  fst (is_user_in_chat now db chat_id user_id) = member_view db chat_id user_id.
Proof.
  unfold is_user_in_chat, member_view.
  destruct (query_active_member db chat_id user_id); [reflexivity|].
  destruct (get_chat db chat_id) as [c|]; [|reflexivity].
  now destruct ((Chat.creator_id c =? user_id)
                || (Chat.recipient_id c =? user_id)).
Qed.


(** ** Participants *)

Lemma existsb_eqb_map_filter (p : ChatMember.t -> bool)
      (l : list ChatMember.t) (z : Z) :
  existsb (Z.eqb z) (map ChatMember.user_id (filter p l)) = true <->
  exists m, In m l /\ p m = true /\ ChatMember.user_id m = z.
Proof.
  rewrite existsb_exists. split.
  - intros [x [Hin Heq]]. apply in_map_iff in Hin.
    destruct Hin as [m [<- Hm]]. apply filter_In in Hm.
    apply Z.eqb_eq in Heq. exists m. intuition.
  - intros [m [Hin [Hp <-]]]. exists (ChatMember.user_id m).
    split; [|apply Z.eqb_refl].
    apply in_map. apply filter_In. tauto.
Qed.

Lemma get_chat_participants_spec db chat_id u :
  In u (get_chat_participants db chat_id) <->
  In u (users db)
  /\ exists m, query_active_member db chat_id (User.id u) = Some m.
Proof.
  unfold get_chat_participants. rewrite filter_In, existsb_eqb_map_filter.
  split; intros [Hu H]; (split; [exact Hu|]).
  - destruct H as [m [Hin [Hp Hid]]].
    destruct (query_active_member db chat_id (User.id u)) as [m'|] eqn:E;
      [now exists m'|].
    exfalso. unfold query_active_member in E.
    apply (find_none _ _ E) in Hin. unfold is_active_member in Hin.
    apply andb_true_iff in Hp. destruct Hp as [Hc Hs].
    rewrite Hc, Hs, Hid, Z.eqb_refl in Hin. discriminate.
  - destruct H as [m Hm]. unfold query_active_member in Hm.
    apply find_some in Hm. destruct Hm as [Hin Hp].
    unfold is_active_member in Hp. rewrite !andb_true_iff, !Z.eqb_eq in Hp.
    exists m. rewrite andb_true_iff, Z.eqb_eq. tauto.
Qed.


(** ** Sending *)

Lemma get_chat_id db chat_id chat :
  get_chat db chat_id = Some chat -> Chat.id chat = chat_id.
Proof.
  intros H. apply find_some_holds in H. now apply Z.eqb_eq in H.
Qed.

Lemma ensure_messages now db chat_id user_id :
  messages (_ensure_user_membership now db chat_id user_id) = messages db.
Proof.
  unfold _ensure_user_membership.
  now destruct (query_active_member db chat_id user_id).
Qed.

(** [send_message] in one equation: the membership decision is the one of
    [is_user_in_chat], and the repair (if any) precedes the insert. *)
Lemma send_message_unfold now db message_data author_id :
  send_message now db message_data author_id =
  let chat_id := MessageData.chat_id message_data in
  if member_view db chat_id author_id then
    let db1 := _ensure_user_membership now db chat_id author_id in
    let message :=
      Message.mk (next_id (map Message.id (messages db)))
                 (MessageData.content message_data)
                 (match MessageData.message_type message_data with
                  | Some t => t
                  | None => TEXT
                  end)
                 author_id chat_id now None false in
    (Ok message, set_messages db1 (messages db ++ [message]))
  else
    (Raise (mkHTTPException HTTP_403_FORBIDDEN
                            "You are not a member of this chat"), db).
Proof.
  unfold send_message, member_view; cbv zeta.
  destruct (query_active_member db (MessageData.chat_id message_data)
                                author_id) as [m|] eqn:E.
  - now rewrite (ensure_present _ _ _ _ _ E).
  - destruct (get_chat db (MessageData.chat_id message_data))
      as [chat|] eqn:Hchat; [|reflexivity].
    destruct ((Chat.creator_id chat =? author_id)
              || (Chat.recipient_id chat =? author_id)); [|reflexivity].
    rewrite (get_chat_id _ _ _ Hchat).
    destruct (ensure_then_query now db (MessageData.chat_id message_data)
                                author_id) as [m ->].
    now rewrite ensure_messages.
Qed.

(** [send_message] against the answer of [is_user_in_chat] in the same
    session. *)
Lemma send_message_by_check
        (now : Z) (db : Session) (message_data : MessageData.t)
        (author_id : Z) :
  let chat_id := MessageData.chat_id message_data in
  let r := send_message now db message_data author_id in
  (fst (is_user_in_chat now db chat_id author_id) = false <->
   exists e, fst r = Raise e /\ Forbidden e)
  /\ (fst (is_user_in_chat now db chat_id author_id) = false ->
      r = (Raise (mkHTTPException HTTP_403_FORBIDDEN
                                 "You are not a member of this chat"), db))
  /\ (fst (is_user_in_chat now db chat_id author_id) = true ->
      exists message,
        fst r = Ok message
        /\ Message.is_deleted message = false
        /\ Message.updated_at message = None
        /\ Message.author_id message = author_id
        /\ Message.chat_id message = chat_id
        /\ Message.content message = MessageData.content message_data
        /\ messages (snd r) = messages db ++ [message])
  /\ (forall chat,
        get_chat db chat_id = Some chat ->
        Chat.creator_id chat = author_id
        \/ Chat.recipient_id chat = author_id ->
        exists message, fst r = Ok message).
Proof.
  intros chat_id r. subst r chat_id.
  rewrite send_message_unfold, is_user_in_chat_view; cbv zeta.
  destruct (member_view db (MessageData.chat_id message_data) author_id)
    eqn:Hview; simpl.
  - repeat split; try discriminate.
    + intros [e [He _]]. discriminate.
    + intros _. eexists. repeat split.
    + intros chat _ _. eexists; reflexivity.
  - repeat split; try discriminate.
    + intros _. eexists. split; [reflexivity | reflexivity].
    + intros chat Hchat Hrole. exfalso.
      unfold member_view in Hview. rewrite Hchat in Hview.
      rewrite (implicit_member_test _ _ Hrole) in Hview.
      destruct (query_active_member db (MessageData.chat_id message_data)
                                    author_id); discriminate.
Qed.

(** ** Chat directory *)

Lemma private_chat_between_sym a b c :
  private_chat_between a b c = private_chat_between b a c.
Proof. unfold private_chat_between. f_equal. apply orb_comm. Qed.

Lemma query_private_chat_sym db a b :
  query_private_chat db a b = query_private_chat db b a.
Proof.
  unfold query_private_chat. apply find_pointwise.
  intros c. apply private_chat_between_sym.
Qed.

Lemma get_or_create_found now db a b chat :
  query_private_chat db a b = Some chat ->
  get_or_create_private_chat now db a b = (Ok chat, db).
Proof. unfold get_or_create_private_chat. now intros ->. Qed.

(** A chat stored for creator [a] and recipient [b] answers the lookup
    of the pair [x], [y] only if that is the same unordered pair. *)
Lemma private_chat_between_new x y a b (c : Chat.t) :
  Chat.creator_id c = a -> Chat.recipient_id c = b ->
  private_chat_between x y c = true ->
  (x = a /\ y = b) \/ (x = b /\ y = a).
Proof.
  intros <- <-. unfold private_chat_between.
  rewrite andb_true_iff, orb_true_iff, !andb_true_iff, !Z.eqb_eq.
  intuition.
Qed.

Lemma get_or_create_cases now db a b ub :
  a <> b ->
  get_user db b = Some ub ->
  let r := get_or_create_private_chat now db a b in
  (exists chat, query_private_chat db a b = Some chat /\ r = (Ok chat, db))
  \/ (query_private_chat db a b = None
      /\ exists chat,
          fst r = Ok chat
          /\ private_chat_between a b chat = true
          /\ Chat.creator_id chat = a
          /\ Chat.recipient_id chat = b
          /\ chats (snd r) = chats db ++ [chat]).
Proof.
  intros Hab Hub r. subst r. unfold get_or_create_private_chat.
  destruct (query_private_chat db a b) as [chat|] eqn:Hq.
  - left. now exists chat.
  - right. split; [reflexivity|].
    unfold create_private_chat. rewrite Hub, Hq.
    destruct (a =? b) eqn:Eab; [apply Z.eqb_eq in Eab; contradiction|].
    eexists. cbv zeta. repeat split.
    unfold private_chat_between; simpl. now rewrite !Z.eqb_refl.
Qed.

(** C2.  For distinct existing users, [get_or_create_private_chat]
    succeeds, and asking again, with the arguments in either order,
    returns the same chat and writes nothing.  The lookup does not
    distinguish creator from recipient.  A chat is created only when the
    pair had none, so a directory with at most one PRIVATE chat per
    unordered pair stays so. *)
Theorem get_or_create_private_chat_same_chat
        (now now' : Z) (db : Session) (a b : Z) :
  a <> b ->
  (exists ua, get_user db a = Some ua) ->
  (exists ub, get_user db b = Some ub) ->
  let r := get_or_create_private_chat now db a b in
  (forall c, private_chat_between a b c = private_chat_between b a c)
  /\ (exists chat,
        fst r = Ok chat
        /\ get_or_create_private_chat now' (snd r) a b = (Ok chat, snd r)
        /\ get_or_create_private_chat now' (snd r) b a = (Ok chat, snd r))
  /\ (private_chat_count db a b = 0%nat ->
      private_chat_count (snd r) a b = 1%nat)
  /\ (private_chat_count db a b <> 0%nat -> chats (snd r) = chats db)
  /\ ((forall x y, (private_chat_count db x y <= 1)%nat) ->
      forall x y, (private_chat_count (snd r) x y <= 1)%nat).
Proof.
  intros Hab _ [ub Hub] r.
  split; [intros c; apply private_chat_between_sym|].
  destruct (get_or_create_cases now db a b ub Hab Hub)
    as [[chat [Hq Hr]] | [Hq [chat [Hok [Hnew [Hcr [Hre Hchats]]]]]]];
    fold r in Hr || fold r in Hok, Hchats.
  - rewrite Hr; simpl. repeat split.
    + exists chat. repeat split.
      * exact (get_or_create_found _ _ _ _ _ Hq).
      * apply get_or_create_found. now rewrite query_private_chat_sym.
    + intros H0. exfalso. unfold private_chat_count in H0.
      apply length_zero_iff_nil in H0.
      unfold query_private_chat in Hq. apply find_some in Hq.
      assert (In chat (filter (private_chat_between a b) (chats db))) as Hin
          by (apply filter_In; exact Hq).
      rewrite H0 in Hin. exact Hin.
    + tauto.
  - assert (filter (private_chat_between a b) (chats db) = []) as Hnil
        by (apply find_none_filter; exact Hq).
    assert (query_private_chat (snd r) a b = Some chat) as Hq'.
    { unfold query_private_chat in *. rewrite Hchats, find_app, Hq; simpl.
      now rewrite Hnew. }
    repeat split.
    + exists chat. repeat split.
      * exact Hok.
      * exact (get_or_create_found _ _ _ _ _ Hq').
      * apply get_or_create_found. now rewrite query_private_chat_sym.
    + intros _. unfold private_chat_count.
      rewrite Hchats, filter_app, Hnil; simpl. now rewrite Hnew.
    + intros H0. exfalso. apply H0. unfold private_chat_count.
      now rewrite Hnil.
    + intros Hinv x y. unfold private_chat_count in *.
      rewrite Hchats, filter_app, length_app; simpl.
      destruct (private_chat_between x y chat) eqn:Hxy; simpl.
      * destruct (private_chat_between_new x y a b chat Hcr Hre Hxy)
          as [[-> ->]|[-> ->]].
        -- rewrite Hnil; simpl; lia.
        -- rewrite (filter_ext _ _ (private_chat_between_sym b a)), Hnil.
           simpl; lia.
      * specialize (Hinv x y). lia.
Qed.

Lemma query_private_chat_self db a :
  (forall c, In c (chats db) -> Chat.creator_id c <> Chat.recipient_id c) ->
  query_private_chat db a a = None.
Proof.
  intros Hwf. unfold query_private_chat.
  destruct (find (private_chat_between a a) (chats db)) as [c|] eqn:E;
    [|reflexivity].
  apply find_some in E. destruct E as [Hin Hp]. exfalso.
  apply (Hwf c Hin). unfold private_chat_between in Hp.
  rewrite andb_true_iff, orb_true_iff, !andb_true_iff, !Z.eqb_eq in Hp.
  intuition congruence.
Qed.


(** ** Editing and soft deletion *)

Lemma get_message_id db message_id m :
  get_message db message_id = Some m -> Message.id m = message_id.
Proof.
  intros H. apply find_some_holds in H. now apply Z.eqb_eq in H.
Qed.

Lemma find_update_message message_id m m' l :
  find (fun x => Message.id x =? message_id) l = Some m ->
  Message.id m' = message_id ->
  find (fun x => Message.id x =? message_id) (update_message message_id m' l)
  = Some m'.
Proof.
  intros Hfind Hid. induction l as [|x l IH]; simpl in *; [discriminate|].
  destruct (Message.id x =? message_id) eqn:E; simpl.
  - now rewrite Hid, Z.eqb_refl.
  - rewrite E. now apply IH.
Qed.

Lemma find_update_message_other message_id k m' l :
  Message.id m' = message_id ->
  k <> message_id ->
  find (fun x => Message.id x =? k) (update_message message_id m' l)
  = find (fun x => Message.id x =? k) l.
Proof.
  intros Hid Hk. induction l as [|x l IH]; simpl; [reflexivity|].
  destruct (Message.id x =? message_id) eqn:E; simpl.
  - apply Z.eqb_eq in E.
    assert ((Message.id m' =? k) = false) as -> by (apply Z.eqb_neq; lia).
    assert ((Message.id x =? k) = false) as -> by (apply Z.eqb_neq; lia).
    reflexivity.
  - now rewrite IH.
Qed.

Lemma update_message_same message_id m l :
  find (fun x => Message.id x =? message_id) l = Some m ->
  update_message message_id m l = l.
Proof.
  induction l as [|x l IH]; simpl; [reflexivity|].
  destruct (Message.id x =? message_id).
  - now intros [= ->].
  - intros H. now rewrite IH.
Qed.

Lemma update_message_length message_id m' l :
  List.length (update_message message_id m' l) = List.length l.
Proof.
  induction l as [|x l IH]; simpl; [reflexivity|].
  destruct (Message.id x =? message_id); simpl; [reflexivity | now rewrite IH].
Qed.

Lemma set_messages_same db : set_messages db (messages db) = db.
Proof. now destruct db. Qed.

(** [edit_message] against the row that the lookup by id returns. *)
Lemma edit_message_by_lookup
        (now : Z) (db : Session) (message_id : Z) (new_content : string)
        (user_id : Z) :
  let r := edit_message now db message_id new_content user_id in
  (get_message db message_id = None ->
   r = (Raise (mkHTTPException HTTP_404_NOT_FOUND "Message not found"), db)
   /\ exists e, fst r = Raise e /\ NotFound e)
  /\ (forall m,
        get_message db message_id = Some m ->
        Message.author_id m <> user_id ->
        r = (Raise (mkHTTPException HTTP_403_FORBIDDEN
                                    "You can only edit your own messages"),
             db)
        /\ exists e, fst r = Raise e /\ Forbidden e)
  /\ (forall m,
        get_message db message_id = Some m ->
        Message.author_id m = user_id ->
        Message.is_deleted m = true ->
        r = (Raise (mkHTTPException HTTP_400_BAD_REQUEST
                                    "Cannot edit deleted message"), db)
        /\ exists e, fst r = Raise e /\ InvalidState e)
  /\ (forall m,
        get_message db message_id = Some m ->
        Message.author_id m = user_id ->
        Message.is_deleted m = false ->
        let m' :=
          Message.mk (Message.id m) new_content (Message.message_type m)
                     (Message.author_id m) (Message.chat_id m)
                     (Message.created_at m) (Some now) (Message.is_deleted m)
        in
        fst r = Ok m'
        /\ get_message (snd r) message_id = Some m'
        /\ (forall k, k <> message_id ->
                      get_message (snd r) k = get_message db k)
        /\ List.length (messages (snd r)) = List.length (messages db)
        /\ users (snd r) = users db
        /\ chats (snd r) = chats db
        /\ chat_members (snd r) = chat_members db
        /\ file_attachments (snd r) = file_attachments db).
Proof.
  intros r. subst r. unfold edit_message.
  destruct (get_message db message_id) as [m0|] eqn:Hget.
  - split; [discriminate|].
    split; [|split]; intros m [= <-].
    + intros Hne. apply Z.eqb_neq in Hne. rewrite Hne; simpl.
      split; [reflexivity|]. eexists; split; reflexivity.
    + intros Heq Hdel. apply Z.eqb_eq in Heq. rewrite Heq, Hdel; simpl.
      split; [reflexivity|]. eexists; split; reflexivity.
    + intros Heq Hdel. apply Z.eqb_eq in Heq. rewrite Heq, Hdel; simpl.
      pose proof (get_message_id _ _ _ Hget) as Hid.
      unfold get_message in *; simpl.
      repeat split.
      * apply (find_update_message _ m0); [exact Hget | exact Hid].
      * intros k Hk. now apply find_update_message_other.
      * apply update_message_length.
  - split.
    + intros _. split; [reflexivity|]. eexists; split; reflexivity.
    + repeat split; discriminate.
Qed.

(** [delete_message] against the row that the lookup by id returns. *)
Lemma delete_message_by_lookup
        (now : Z) (db : Session) (message_id user_id : Z) :
  let r := delete_message now db message_id user_id in
  (get_message db message_id = None ->
   r = (Raise (mkHTTPException HTTP_404_NOT_FOUND "Message not found"), db)
   /\ exists e, fst r = Raise e /\ NotFound e)
  /\ (forall m,
        get_message db message_id = Some m ->
        Message.author_id m <> user_id ->
        r = (Raise (mkHTTPException HTTP_403_FORBIDDEN
                                    "You can only delete your own messages"),
             db)
        /\ exists e, fst r = Raise e /\ Forbidden e)
  /\ (forall m,
        get_message db message_id = Some m ->
        Message.author_id m = user_id ->
        fst r = Ok true
        /\ (exists m',
              get_message (snd r) message_id = Some m'
              /\ Message.is_deleted m' = true
              /\ Message.id m' = Message.id m
              /\ Message.content m' = Message.content m
              /\ Message.author_id m' = Message.author_id m
              /\ Message.chat_id m' = Message.chat_id m
              /\ Message.created_at m' = Message.created_at m)
        /\ (forall k, k <> message_id ->
                      get_message (snd r) k = get_message db k)
        /\ (Message.is_deleted m = true -> r = (Ok true, db))
        /\ (forall now',
              delete_message now' (snd r) message_id user_id
              = (Ok true, snd r))).
Proof.
  intros r.
  assert (forall d t m,
             get_message d message_id = Some m ->
             Message.author_id m = user_id ->
             Message.is_deleted m = true ->
             delete_message t d message_id user_id = (Ok true, d)) as Hagain.
  { intros d t m Hget Heq Hdel. unfold delete_message.
    apply Z.eqb_eq in Heq. rewrite Hget, Heq, Hdel; simpl.
    unfold get_message in Hget.
    now rewrite (update_message_same _ _ _ Hget), set_messages_same. }
  assert (r = delete_message now db message_id user_id) as Hr by reflexivity.
  clearbody r. unfold delete_message in Hr.
  destruct (get_message db message_id) as [m0|] eqn:Hget.
  - split; [discriminate|].
    split; intros m [= <-].
    + intros Hne. apply Z.eqb_neq in Hne. rewrite Hne in Hr; simpl in Hr.
      subst r. split; [reflexivity|]. eexists; split; reflexivity.
    + intros Heq. pose proof Heq as Heqb. apply Z.eqb_eq in Heqb.
      rewrite Heqb in Hr; simpl in Hr.
      pose proof (get_message_id _ _ _ Hget) as Hid.
      set (m' := if Message.is_deleted m0 then m0
                 else Message.mk (Message.id m0) (Message.content m0)
                        (Message.message_type m0) (Message.author_id m0)
                        (Message.chat_id m0) (Message.created_at m0)
                        (Some now) true) in Hr.
      assert (Message.id m' = message_id) as Hid'
          by (subst m'; now destruct (Message.is_deleted m0)).
      assert (Message.is_deleted m' = true) as Hdel'
          by (subst m'; now destruct (Message.is_deleted m0) eqn:E).
      assert (get_message (snd r) message_id = Some m') as Hget'.
      { subst r. unfold get_message in *; simpl.
        now apply (find_update_message _ m0). }
      split; [now subst r|]. split; [|split; [|split]].
      * exists m'. split; [exact Hget'|].
        subst m'. destruct (Message.is_deleted m0) eqn:E; repeat split; auto.
      * intros k Hk. subst r. unfold get_message; simpl.
        now apply find_update_message_other.
      * intros Hdel. subst r m'. rewrite Hdel.
        unfold get_message in Hget.
        now rewrite (update_message_same _ _ _ Hget), set_messages_same.
      * intros now'. apply (Hagain _ _ m' Hget'); [|exact Hdel'].
        subst m'. now destruct (Message.is_deleted m0).
  - subst r. split.
    + intros _. split; [reflexivity|]. eexists; split; reflexivity.
    + split; intros; discriminate.
Qed.

(** ** Listing *)

Lemma insert_desc_perm m l : Permutation (insert_desc m l) (m :: l).
Proof.
  induction l as [|x l IH]; simpl; [apply Permutation_refl|].
  destruct (Message.created_at x <=? Message.created_at m).
  - apply Permutation_refl.
  - eapply Permutation_trans; [apply perm_skip, IH | apply perm_swap].
Qed.

Lemma insert_desc_sorted m l :
  StronglySorted newer_or_equal l ->
  StronglySorted newer_or_equal (insert_desc m l).
Proof.
  induction l as [|x l IH]; intros Hs; simpl.
  - constructor; constructor.
  - apply StronglySorted_inv in Hs. destruct Hs as [Hl Hx].
    destruct (Message.created_at x <=? Message.created_at m) eqn:E.
    + apply Z.leb_le in E. constructor.
      * now constructor.
      * constructor; [exact E|].
        eapply Forall_impl; [|exact Hx].
        unfold newer_or_equal. intros y Hy. lia.
    + apply Z.leb_gt in E. constructor; [now apply IH|].
      eapply Permutation_Forall;
        [apply Permutation_sym, insert_desc_perm|].
      constructor; [unfold newer_or_equal; lia | exact Hx].
Qed.

Lemma order_by_created_at_desc_perm l :
  Permutation (order_by_created_at_desc l) l.
Proof.
  induction l as [|x l IH]; simpl; [constructor|].
  eapply Permutation_trans; [apply insert_desc_perm | now apply perm_skip].
Qed.

Lemma order_by_created_at_desc_sorted l :
  StronglySorted newer_or_equal (order_by_created_at_desc l).
Proof.
  induction l as [|x l IH]; simpl; [constructor | now apply insert_desc_sorted].
Qed.

Section Slices.
Context {A : Type} (R : A -> A -> Prop).

Lemma StronglySorted_skipn n (l : list A) :
  StronglySorted R l -> StronglySorted R (skipn n l).
Proof.
  revert l. induction n as [|n IH]; intros [|x l] Hs; simpl; auto.
  apply IH. now apply StronglySorted_inv in Hs.
Qed.

Lemma Forall_firstn (P : A -> Prop) n (l : list A) :
  Forall P l -> Forall P (firstn n l).
Proof.
  revert l. induction n as [|n IH]; intros [|x l] H; simpl;
    try constructor.
  - now inversion H.
  - apply IH. now inversion H.
Qed.

Lemma Forall_skipn (P : A -> Prop) n (l : list A) :
  Forall P l -> Forall P (skipn n l).
Proof.
  revert l. induction n as [|n IH]; intros [|x l] H; simpl; auto.
  apply IH. now inversion H.
Qed.

Lemma StronglySorted_firstn n (l : list A) :
  StronglySorted R l -> StronglySorted R (firstn n l).
Proof.
  revert l. induction n as [|n IH]; intros [|x l] Hs; simpl;
    try constructor.
  - apply IH. now apply StronglySorted_inv in Hs.
  - apply Forall_firstn. now apply StronglySorted_inv in Hs.
Qed.

(** Two consecutive pages are one page. *)
Lemma firstn_pages a b (l : list A) :
  firstn a l ++ firstn b (skipn a l) = firstn (a + b) l.
Proof.
  revert l. induction a as [|a IH]; intros [|x l]; simpl;
    try reflexivity.
  - now destruct b.
  - now rewrite IH.
Qed.

Lemma skipn_add a b (l : list A) :
  skipn (a + b) l = skipn b (skipn a l).
Proof.
  revert l. induction a as [|a IH]; intros [|x l]; simpl;
    try reflexivity.
  - now destruct b.
  - apply IH.
Qed.
End Slices.

Lemma filter_length_le {A} (p : A -> bool) (l : list A) :
  (List.length (filter p l) <= List.length l)%nat.
Proof.
  induction l as [|x l IH]; simpl; [lia|].
  destruct (p x); simpl; lia.
Qed.

(** C8.  A page of [get_chat_messages] holds only stored messages of the
    chat that are not deleted, newest first, and at most [limit] of them
    (50 by default).  The page that starts where a page ended continues
    it: both together are the page of the summed limits, and the page
    from offset 0 that is long enough holds every such message. *)
Theorem get_chat_messages_page
        (db : Session) (chat_id : Z) (skip limit : nat) :
  let page := get_chat_messages db chat_id skip limit in
  Forall (fun m => In m (messages db)
                   /\ Message.chat_id m = chat_id
                   /\ Message.is_deleted m = false) page
  /\ StronglySorted newer_or_equal page
  /\ (List.length page <= limit)%nat
  /\ (forall limit',
        page ++ get_chat_messages db chat_id (skip + limit) limit'
        = get_chat_messages db chat_id skip (limit + limit'))
  /\ Permutation
       (get_chat_messages db chat_id 0 (List.length (messages db)))
       (filter (fun m => (Message.chat_id m =? chat_id)
                         && negb (Message.is_deleted m))
               (messages db))
  /\ get_chat_messages_default db chat_id = get_chat_messages db chat_id 0 50
  /\ (List.length (get_chat_messages_default db chat_id) <= 50)%nat.
Proof.
  intros page. subst page.
  unfold get_chat_messages_default, get_chat_messages.
  set (p := fun m => (Message.chat_id m =? chat_id)
                     && Bool.eqb (Message.is_deleted m) false).
  set (sorted := order_by_created_at_desc (filter p (messages db))).
  assert (Forall (fun m => In m (messages db)
                           /\ Message.chat_id m = chat_id
                           /\ Message.is_deleted m = false) sorted) as Hall.
  { eapply Permutation_Forall;
      [apply Permutation_sym, order_by_created_at_desc_perm|].
    apply Forall_forall. intros m Hm. apply filter_In in Hm.
    destruct Hm as [Hin Hp]. subst p; simpl in Hp.
    apply andb_true_iff in Hp. destruct Hp as [Hc Hd].
    apply Z.eqb_eq in Hc. apply eqb_prop in Hd. auto. }
  repeat split.
  - now apply Forall_firstn, Forall_skipn.
  - apply StronglySorted_firstn, StronglySorted_skipn.
    apply order_by_created_at_desc_sorted.
  - apply firstn_le_length.
  - intros limit'. rewrite skipn_add. apply firstn_pages.
  - simpl skipn. rewrite firstn_all2.
    + eapply Permutation_trans; [apply order_by_created_at_desc_perm|].
      subst p. erewrite filter_ext; [apply Permutation_refl|].
      intros m; simpl. now destruct (Message.is_deleted m).
    + subst sorted.
      rewrite (Permutation_length (order_by_created_at_desc_perm _)).
      apply filter_length_le.
  - apply firstn_le_length.
Qed.

(** ** Attachments *)

Lemma getsize_write_file path n fs :
  getsize path (write_file path n fs) = n.
Proof. unfold getsize, write_file; simpl. now rewrite String.eqb_refl. Qed.

Lemma MAX_FILE_SIZE_value : MAX_FILE_SIZE = 10485760.
Proof. reflexivity. Qed.

Lemma size_check_passed (size : option Z) (s n : Z) :
  match size with
  | Some s => negb (s =? 0) && (MAX_FILE_SIZE <? s)
  | None => false
  end = false ->
  size = Some s ->
  (n <= s -> n <= MAX_FILE_SIZE) /\ ~ MAX_FILE_SIZE < s.
Proof.
  intros Hsize ->. pose proof MAX_FILE_SIZE_value as Hmax.
  apply andb_false_iff in Hsize. destruct Hsize as [Hz|Hle].
  - apply negb_false_iff, Z.eqb_eq in Hz. lia.
  - apply Z.ltb_ge in Hle. lia.
Qed.

(** * Instances on the sample sessions *)


Lemma get_or_create_private_chat_same_chat_witness :
  exists chat,
    fst (get_or_create_private_chat 130 fresh_session 1 2) = Ok chat
    /\ fst (get_or_create_private_chat
              140 (snd (get_or_create_private_chat 130 fresh_session 1 2))
              2 1) = Ok chat.
Proof.
  destruct (get_or_create_private_chat_same_chat 130 140 fresh_session 1 2)
    as [_ [[chat [Hfirst [_ Hswap]]] _]].
  - discriminate.
  - exists alice. reflexivity.
  - exists bob. reflexivity.
  - exists chat. split; [exact Hfirst|]. now rewrite Hswap.
Defined.




(** ** Where the code departs from the stated behaviour *)


(** ** The scenario of the interface description, evaluated *)

Example scenario_create_chat :
  get_or_create_private_chat 100 fresh_session 1 2
  = (Ok legacy_chat,
     mkSession [alice; bob; carol] [legacy_chat]
               [ChatMember.mk 1 1 1 PARTICIPANT ACTIVE 100;
                ChatMember.mk 2 2 1 PARTICIPANT ACTIVE 100]
               [] [] []).
Proof. reflexivity. Qed.

Example scenario_send_by_legacy_recipient :
  send_message 130 legacy_session (MessageData.mk 1 "hi" None) 2
  = (Ok (Message.mk 1 "hi" TEXT 2 1 130 None false),
     mkSession [alice; bob; carol] [legacy_chat]
               [ChatMember.mk 1 2 1 PARTICIPANT ACTIVE 130]
               [Message.mk 1 "hi" TEXT 2 1 130 None false] [] []).
Proof. reflexivity. Qed.

Example scenario_send_by_stranger :
  send_message 130 legacy_session (MessageData.mk 1 "hi" None) 3
  = (Raise (mkHTTPException 403 "You are not a member of this chat"),
     legacy_session).
Proof. reflexivity. Qed.

Example scenario_edit_by_other_member :
  fst (edit_message 130 ledger_session 1 "hello" 2)
  = Raise (mkHTTPException 403 "You can only edit your own messages").
Proof. reflexivity. Qed.

Example scenario_edit_by_author :
  fst (edit_message 130 ledger_session 1 "hello" 1)
  = Ok (Message.mk 1 "hello" TEXT 1 1 110 (Some 130) false).
Proof. reflexivity. Qed.

Example scenario_edit_deleted :
  fst (edit_message 130 ledger_session 2 "hello" 1)
  = Raise (mkHTTPException 400 "Cannot edit deleted message").
Proof. reflexivity. Qed.

Example scenario_delete_twice :
  delete_message 130 ledger_session 2 1 = (Ok true, ledger_session)
  /\ fst (delete_message 130 ledger_session 1 2)
     = Raise (mkHTTPException 403 "You can only delete your own messages").
Proof. split; reflexivity. Qed.

Example scenario_list_messages :
  get_chat_messages_default ledger_session 1 = [greeting].
Proof. reflexivity. Qed.

Example scenario_upload_small :
  fst (upload_file 130 "20240101_120000" fresh_session small_upload 1)
  = Ok (FileAttachment.mk 1 "Notes.TXT"
                          "uploads/20240101_120000_Notes.TXT" 12
                          "application/octet-stream" 1 130).
Proof. reflexivity. Qed.

(** * Further properties of the code *)

(** ** The reconciler as a building block *)

Lemma ensure_keeps_at_most_one_active now db chat_id user_id :
  at_most_one_active db ->
  at_most_one_active (_ensure_user_membership now db chat_id user_id).
Proof.
  intros Hinv c u.
  destruct (query_active_member db chat_id user_id) as [m|] eqn:E.
  - rewrite (ensure_present _ _ _ _ _ E). apply Hinv.
  - destruct (Z.eq_dec c chat_id) as [->|Hc];
      [destruct (Z.eq_dec u user_id) as [->|Hu]|].
    + rewrite (active_rows_ensure_absent _ _ _ _ E). simpl; lia.
    + rewrite active_rows_ensure_other by congruence. apply Hinv.
    + rewrite active_rows_ensure_other by congruence. apply Hinv.
Qed.

Lemma ensure_query_mono now db chat_id user_id c u m :
  query_active_member db c u = Some m ->
  query_active_member (_ensure_user_membership now db chat_id user_id) c u
  = Some m.
Proof.
  intros H. unfold _ensure_user_membership.
  destruct (query_active_member db chat_id user_id); [exact H|].
  unfold query_active_member in *; simpl. now rewrite find_app, H.
Qed.

Lemma ensure_other_tables now db chat_id user_id :
  let db' := _ensure_user_membership now db chat_id user_id in
  users db' = users db /\ chats db' = chats db
  /\ messages db' = messages db
  /\ file_attachments db' = file_attachments db
  /\ uploads db' = uploads db.
Proof.
  unfold _ensure_user_membership.
  destruct (query_active_member db chat_id user_id); simpl; auto.
Qed.

Lemma ensure_members_extend now db chat_id user_id :
  exists added,
    chat_members (_ensure_user_membership now db chat_id user_id)
    = chat_members db ++ added
    /\ Forall (fun m => ChatMember.chat_id m = chat_id) added.
Proof.
  unfold _ensure_user_membership.
  destruct (query_active_member db chat_id user_id).
  - exists []. now rewrite app_nil_r.
  - exists [new_member now db chat_id user_id]. split; [reflexivity|].
    constructor; [reflexivity | constructor].
Qed.

Lemma ensure_keeps_references now db chat_id user_id :
  In chat_id (map Chat.id (chats db)) ->
  members_reference_chats db ->
  members_reference_chats (_ensure_user_membership now db chat_id user_id).
Proof.
  intros Hin Href m Hm.
  destruct (ensure_other_tables now db chat_id user_id) as [_ [-> _]].
  destruct (ensure_members_extend now db chat_id user_id)
    as [added [Heq Hadded]].
  rewrite Heq in Hm. apply in_app_or in Hm. destruct Hm as [Hm|Hm].
  - now apply Href.
  - rewrite Forall_forall in Hadded. now rewrite (Hadded m Hm).
Qed.

Lemma next_id_fresh ids x : In x ids -> x < next_id ids.
Proof.
  unfold next_id. induction ids as [|y ids IH]; cbn [fold_right In];
    [tauto|].
  intros [->|Hin]; [lia|]. specialize (IH Hin). lia.
Qed.

(** ** Creating a chat *)

(** The three ways [create_private_chat] ends. *)
Lemma create_private_chat_cases now db a b :
  let r := create_private_chat now db a b in
  (exists e, r = (Raise e, db))
  \/ (exists ub chat,
        get_user db b = Some ub /\ a <> b
        /\ query_private_chat db a b = Some chat
        /\ r = (Ok chat,
                _ensure_user_membership now
                  (_ensure_user_membership now db (Chat.id chat) a)
                  (Chat.id chat) b))
  \/ (exists ub,
        get_user db b = Some ub /\ a <> b
        /\ query_private_chat db a b = None
        /\ let chat :=
             Chat.mk (next_id (map Chat.id (chats db))) None None PRIVATE
                     a b now true in
           let key := next_id (map ChatMember.id (chat_members db)) in
           r = (Ok chat,
                mkSession (users db) (chats db ++ [chat])
                  (chat_members db
                   ++ [ChatMember.mk key a (Chat.id chat)
                                     PARTICIPANT ACTIVE now;
                       ChatMember.mk (key + 1) b (Chat.id chat)
                                     PARTICIPANT ACTIVE now])
                  (messages db) (file_attachments db) (uploads db))).
Proof.
  unfold create_private_chat.
  destruct (get_user db b) as [ub|] eqn:Hub; [|left; eexists; reflexivity].
  destruct (a =? b) eqn:Eab; [left; eexists; reflexivity|].
  apply Z.eqb_neq in Eab.
  destruct (query_private_chat db a b) as [chat|] eqn:Hq.
  - right; left. exists ub, chat. auto.
  - right; right. exists ub. repeat split; auto.
Qed.

Lemma create_private_chat_success now db a b chat db' :
  create_private_chat now db a b = (Ok chat, db') ->
  a <> b
  /\ (exists ub, get_user db b = Some ub)
  /\ users db' = users db
  /\ In chat (chats db')
  /\ query_private_chat db' a b = Some chat
  /\ (exists m, query_active_member db' (Chat.id chat) a = Some m)
  /\ (exists m, query_active_member db' (Chat.id chat) b = Some m).
Proof.
  intros Hr.
  destruct (create_private_chat_cases now db a b)
    as [[e He] | [[ub [c [Hub [Hab [Hq He]]]]] | [ub [Hub [Hab [Hq He]]]]]];
    rewrite Hr in He.
  - discriminate.
  - injection He as -> ->.
    pose proof Hq as Hq0.
    unfold query_private_chat in Hq. apply find_some in Hq.
    destruct Hq as [Hin Hp].
    destruct (ensure_then_query now db (Chat.id c) a) as [ma Hma].
    destruct (ensure_other_tables now
                (_ensure_user_membership now db (Chat.id c) a)
                (Chat.id c) b) as [Hu2 [Hc2 _]].
    destruct (ensure_other_tables now db (Chat.id c) a) as [Hu1 [Hc1 _]].
    split; [exact Hab|]. split; [now exists ub|].
    split; [now rewrite Hu2, Hu1|].
    split; [now rewrite Hc2, Hc1|].
    split; [unfold query_private_chat in *; now rewrite Hc2, Hc1|].
    split.
    + exists ma. now apply ensure_query_mono.
    + apply ensure_then_query.
  - cbv zeta in He. injection He as -> ->. simpl.
    split; [exact Hab|]. split; [now exists ub|].
    split; [reflexivity|].
    split; [apply in_or_app; right; now left|].
    split; [|split].
    + unfold query_private_chat in *; simpl. rewrite find_app, Hq; simpl.
      unfold private_chat_between; simpl. now rewrite !Z.eqb_refl.
    + unfold query_active_member; simpl. rewrite find_app.
      destruct (find _ (chat_members db)); [eexists; reflexivity|].
      simpl. unfold is_active_member at 1; simpl.
      rewrite !Z.eqb_refl; simpl. eexists; reflexivity.
    + unfold query_active_member; simpl. rewrite find_app.
      destruct (find _ (chat_members db)); [eexists; reflexivity|].
      simpl. unfold is_active_member at 1 2; simpl.
      rewrite !Z.eqb_refl; simpl.
      destruct (a =? b); simpl; eexists; reflexivity.
Qed.


(** X2.  [create_private_chat] can be repeated: after a successful call,
    the same call, the call with the two ids exchanged (when the first
    id is a stored user) and [get_or_create_private_chat] all return the
    same chat and leave the session as it is. *)
Theorem create_private_chat_again
        (now now' : Z) (db : Session) (a b : Z) (chat : Chat.t)
        (db' : Session) :
  create_private_chat now db a b = (Ok chat, db') ->
  create_private_chat now' db' a b = (Ok chat, db')
  /\ (forall ua, get_user db a = Some ua ->
                 create_private_chat now' db' b a = (Ok chat, db'))
  /\ get_or_create_private_chat now' db' a b = (Ok chat, db')
  /\ get_or_create_private_chat now' db' b a = (Ok chat, db').
Proof.
  intros Hr.
  destruct (create_private_chat_success _ _ _ _ _ _ Hr)
    as [Hab [[ub Hub] [Husers [_ [Hq [[ma Ha] [mb Hb]]]]]]].
  assert (forall x y ux,
             get_user db y = Some ux -> x <> y ->
             query_private_chat db' x y = Some chat ->
             (exists m, query_active_member db' (Chat.id chat) x = Some m) ->
             (exists m, query_active_member db' (Chat.id chat) y = Some m) ->
             create_private_chat now' db' x y = (Ok chat, db')) as Hre.
  { intros x y ux Hy Hxy Hqxy [mx Hx] [my Hmy].
    unfold create_private_chat. unfold get_user in *. rewrite Husers, Hy.
    apply Z.eqb_neq in Hxy. rewrite Hxy, Hqxy.
    now rewrite (ensure_present _ _ _ _ _ Hx), (ensure_present _ _ _ _ _ Hmy). }
  split; [|split; [|split]].
  - apply (Hre a b ub); eauto.
  - intros ua Hua. apply (Hre b a ua); eauto.
    now rewrite query_private_chat_sym.
  - now apply get_or_create_found.
  - apply get_or_create_found. now rewrite query_private_chat_sym.
Qed.

(** X3.  [create_private_chat] keeps the membership table sound: if
    every membership row belongs to a stored chat and no (chat, user)
    pair has two ACTIVE rows, both still hold afterwards, whether the
    call fails, repairs an existing chat or creates a new one. *)
Theorem create_private_chat_keeps_invariants
        (now : Z) (db : Session) (a b : Z) :
  at_most_one_active db ->
  members_reference_chats db ->
  let db' := snd (create_private_chat now db a b) in
  at_most_one_active db' /\ members_reference_chats db'.
Proof.
  intros Hone Href db'. subst db'.
  destruct (create_private_chat_cases now db a b)
    as [[e He] | [[ub [c [Hub [Hab [Hq He]]]]] | [ub [Hub [Hab [Hq He]]]]]];
    rewrite He; simpl.
  - now split.
  - unfold query_private_chat in Hq. apply find_some in Hq.
    destruct Hq as [Hin _].
    assert (In (Chat.id c) (map Chat.id (chats db))) as Hid
        by now apply in_map.
    split.
    + now apply ensure_keeps_at_most_one_active,
        ensure_keeps_at_most_one_active.
    + apply ensure_keeps_references.
      * now destruct (ensure_other_tables now db (Chat.id c) a)
          as [_ [-> _]].
      * now apply ensure_keeps_references.
  - set (cid := next_id (map Chat.id (chats db))).
    assert (forall u, active_rows db cid u = []) as Hfresh.
    { intros u. unfold active_rows.
      destruct (filter (is_active_member cid u) (chat_members db))
        as [|m l] eqn:E; [reflexivity|]. exfalso.
      assert (In m (filter (is_active_member cid u) (chat_members db)))
        as Hm by (rewrite E; now left).
      apply filter_In in Hm. destruct Hm as [Hm Hp].
      apply Href in Hm. apply next_id_fresh in Hm. fold cid in Hm.
      unfold is_active_member in Hp.
      rewrite !andb_true_iff, Z.eqb_eq in Hp. lia. }
    split.
    + clearbody cid. intros c u. unfold active_rows; simpl.
      rewrite filter_app, length_app.
      match goal with
      | |- (_ + List.length ?t <= 1)%nat =>
          assert ((List.length t <= 1)%nat
                  /\ (c <> cid -> List.length t = 0%nat)) as [Hle Hz]
      end.
      { cbn [filter]. unfold is_active_member; simpl.
        destruct (Z.eqb_spec cid c), (Z.eqb_spec a u), (Z.eqb_spec b u);
          simpl; split; intros; try lia; congruence. }
      destruct (Z.eq_dec c cid) as [->|Hc].
      * fold (active_rows db cid u). rewrite Hfresh. simpl. exact Hle.
      * rewrite (Hz Hc). specialize (Hone c u). unfold active_rows in Hone.
        lia.
    + intros m Hm; simpl in *. rewrite map_app. apply in_or_app.
      apply in_app_or in Hm. destruct Hm as [Hm|[<-|[<-|[]]]]; simpl; auto.
Qed.

(** ** Adding a member by hand *)

Lemma find_exists {A} (p : A -> bool) (l : list A) (x : A) :
  In x l -> p x = true -> exists y, find p l = Some y.
Proof.
  intros Hin Hp. destruct (find p l) as [y|] eqn:E; [now exists y|].
  rewrite (find_none _ _ E x Hin) in Hp. discriminate.
Qed.

Lemma MemberStatus_eqb_eq (s t : MemberStatus) :
  MemberStatus_eqb s t = true <-> s = t.
Proof. destruct s, t; simpl; split; intros H; congruence. Qed.

Lemma add_member_to_chat_success now db chat_id user_id role member db' :
  add_member_to_chat now db chat_id user_id role = (Ok member, db') ->
  find (fun m => (ChatMember.chat_id m =? chat_id)
                 && (ChatMember.user_id m =? user_id)) (chat_members db)
  = None
  /\ member = new_member now db chat_id user_id
  /\ db' = _ensure_user_membership now db chat_id user_id.
Proof.
  unfold add_member_to_chat.
  destruct (find _ (chat_members db)) as [m|] eqn:E; [discriminate|].
  intros [= <- <-]. split; [reflexivity|]. split; [reflexivity|].
  rewrite ensure_absent; [reflexivity|].
  unfold query_active_member.
  destruct (find (is_active_member chat_id user_id) (chat_members db))
    as [m|] eqn:Ea; [|reflexivity].
  apply find_some in Ea. destruct Ea as [Hin Hp].
  apply (find_none _ _ E) in Hin. unfold is_active_member in Hp.
  apply andb_true_iff in Hp. destruct Hp as [Hp _]. congruence.
Qed.

Lemma add_member_to_chat_active_refused now db chat_id user_id role m :
  query_active_member db chat_id user_id = Some m ->
  add_member_to_chat now db chat_id user_id role
  = (Raise (mkHTTPException HTTP_400_BAD_REQUEST
                            "User is already a member of this chat"), db).
Proof.
  intros Hm. unfold query_active_member in Hm.
  apply find_some in Hm. destruct Hm as [Hin Hp].
  unfold is_active_member in Hp. apply andb_true_iff in Hp.
  destruct Hp as [Hp _]. unfold add_member_to_chat.
  now destruct (find_exists
                  (fun m => (ChatMember.chat_id m =? chat_id)
                            && (ChatMember.user_id m =? user_id))
                  (chat_members db) m Hin Hp) as [y ->].
Qed.

(** X4.  [add_member_to_chat] answers 400 as soon as the pair has a row
    of any status (a BLOCKED or LEFT member cannot be added again) and
    then writes nothing; when the pair has no row it appends one ACTIVE
    PARTICIPANT row, whatever [role] was asked for.  It never gives a
    pair a second ACTIVE row. *)
Theorem add_member_to_chat_outcomes
        (now : Z) (db : Session) (chat_id user_id : Z) (role : string) :
  let r := add_member_to_chat now db chat_id user_id role in
  (forall m, In m (chat_members db) ->
             ChatMember.chat_id m = chat_id ->
             ChatMember.user_id m = user_id ->
             r = (Raise (mkHTTPException
                           HTTP_400_BAD_REQUEST
                           "User is already a member of this chat"), db))
  /\ ((forall m, In m (chat_members db) ->
                 ~ (ChatMember.chat_id m = chat_id
                    /\ ChatMember.user_id m = user_id)) ->
      let member :=
        ChatMember.mk (next_id (map ChatMember.id (chat_members db)))
                      user_id chat_id PARTICIPANT ACTIVE now in
      r = (Ok member, set_chat_members db (chat_members db ++ [member])))
  /\ (forall role', add_member_to_chat now db chat_id user_id role' = r)
  /\ (at_most_one_active db -> at_most_one_active (snd r)).
Proof.
  intros r. subst r. split; [|split; [|split]].
  - intros m Hin Hc Hu. unfold add_member_to_chat.
    destruct (find_exists
                (fun m => (ChatMember.chat_id m =? chat_id)
                          && (ChatMember.user_id m =? user_id))
                (chat_members db) m Hin) as [y ->]; [|reflexivity].
    now rewrite Hc, Hu, !Z.eqb_refl.
  - intros Hnone member. unfold add_member_to_chat.
    destruct (find _ (chat_members db)) as [m|] eqn:E; [|reflexivity].
    exfalso. apply find_some in E. destruct E as [Hin Hp].
    apply (Hnone m Hin).
    now rewrite andb_true_iff, !Z.eqb_eq in Hp.
  - reflexivity.
  - intros Hone.
    destruct (add_member_to_chat now db chat_id user_id role)
      as [[member|e] db'] eqn:E; simpl.
    + destruct (add_member_to_chat_success _ _ _ _ _ _ _ E) as [_ [_ ->]].
      now apply ensure_keeps_at_most_one_active.
    + unfold add_member_to_chat in E.
      destruct (find _ (chat_members db)); inversion E; subst; exact Hone.
Qed.

(** X5.  Once the reconciler has run for a pair, [add_member_to_chat]
    refuses that pair with 400 and writes nothing. *)
Theorem add_member_after_ensure_refused
        (now now' : Z) (db : Session) (chat_id user_id : Z) (role : string) :
  let db1 := _ensure_user_membership now db chat_id user_id in
  add_member_to_chat now' db1 chat_id user_id role
  = (Raise (mkHTTPException HTTP_400_BAD_REQUEST
                            "User is already a member of this chat"), db1).
Proof.
  intros db1.
  destruct (ensure_then_query now db chat_id user_id) as [m Hm].
  exact (add_member_to_chat_active_refused _ _ _ _ _ _ Hm).
Qed.

(** X6.  A member added by [add_member_to_chat] is a member for the
    rest of the code: the reconciler has nothing to add, the membership
    check is answered from the row without writing, and adding the same
    member again is refused. *)
Theorem add_member_then_member
        (now now' : Z) (db : Session) (chat_id user_id : Z) (role : string)
        (member : ChatMember.t) (db' : Session) :
  add_member_to_chat now db chat_id user_id role = (Ok member, db') ->
  _ensure_user_membership now' db' chat_id user_id = db'
  /\ is_user_in_chat now' db' chat_id user_id = (true, db')
  /\ fst (add_member_to_chat now' db' chat_id user_id role)
     = Raise (mkHTTPException HTTP_400_BAD_REQUEST
                              "User is already a member of this chat")
  /\ chat_members db' = chat_members db ++ [member]
  /\ ChatMember.status member = ACTIVE.
Proof.
  intros Hr.
  destruct (add_member_to_chat_success _ _ _ _ _ _ _ Hr) as [Hnone [-> ->]].
  destruct (ensure_then_query now db chat_id user_id) as [m Hm].
  split; [exact (ensure_present _ _ _ _ _ Hm)|].
  split; [exact (is_user_in_chat_explicit _ _ _ _ _ Hm)|].
  split.
  - now rewrite (add_member_to_chat_active_refused now' _ _ _ role _ Hm).
  - split; [|reflexivity].
    unfold _ensure_user_membership, query_active_member.
    destruct (find (is_active_member chat_id user_id) (chat_members db))
      as [x|] eqn:Ea; [|reflexivity].
    exfalso. apply find_some in Ea. destruct Ea as [Hin Hp].
    apply (find_none _ _ Hnone) in Hin. unfold is_active_member in Hp.
    apply andb_true_iff in Hp. destruct Hp as [Hp _]. congruence.
Qed.

(** ** Repairing the parties of stored chats *)

Lemma parties_other_tables now db chat :
  let db' := ensure_chat_parties now db chat in
  users db' = users db /\ chats db' = chats db
  /\ messages db' = messages db
  /\ file_attachments db' = file_attachments db
  /\ uploads db' = uploads db.
Proof.
  unfold ensure_chat_parties.
  destruct (ensure_other_tables now
              (_ensure_user_membership now db (Chat.id chat)
                                       (Chat.creator_id chat))
              (Chat.id chat) (Chat.recipient_id chat))
    as [-> [-> [-> [-> ->]]]].
  apply ensure_other_tables.
Qed.

Lemma parties_query_mono now db chat c u m :
  query_active_member db c u = Some m ->
  query_active_member (ensure_chat_parties now db chat) c u = Some m.
Proof.
  intros H. unfold ensure_chat_parties.
  now apply ensure_query_mono, ensure_query_mono.
Qed.

Lemma parties_heals now db chat :
  let db' := ensure_chat_parties now db chat in
  (exists m, query_active_member db' (Chat.id chat) (Chat.creator_id chat)
             = Some m)
  /\ (exists m, query_active_member db' (Chat.id chat)
                                    (Chat.recipient_id chat) = Some m).
Proof.
  unfold ensure_chat_parties. split.
  - destruct (ensure_then_query now db (Chat.id chat) (Chat.creator_id chat))
      as [m Hm].
    exists m. now apply ensure_query_mono.
  - apply ensure_then_query.
Qed.

Lemma parties_keeps_at_most_one_active now db chat :
  at_most_one_active db ->
  at_most_one_active (ensure_chat_parties now db chat).
Proof.
  intros H. unfold ensure_chat_parties.
  now apply ensure_keeps_at_most_one_active, ensure_keeps_at_most_one_active.
Qed.

Lemma parties_members_extend now db chat :
  exists added,
    chat_members (ensure_chat_parties now db chat) = chat_members db ++ added
    /\ Forall (fun m => ChatMember.chat_id m = Chat.id chat) added.
Proof.
  unfold ensure_chat_parties.
  destruct (ensure_members_extend now db (Chat.id chat)
                                  (Chat.creator_id chat)) as [l1 [E1 F1]].
  destruct (ensure_members_extend now
              (_ensure_user_membership now db (Chat.id chat)
                                       (Chat.creator_id chat))
              (Chat.id chat) (Chat.recipient_id chat)) as [l2 [E2 F2]].
  exists (l1 ++ l2). rewrite E2, E1, app_assoc. split; [reflexivity|].
  apply Forall_app. now split.
Qed.

Lemma parties_noop now db chat m1 m2 :
  query_active_member db (Chat.id chat) (Chat.creator_id chat) = Some m1 ->
  query_active_member db (Chat.id chat) (Chat.recipient_id chat) = Some m2 ->
  ensure_chat_parties now db chat = db.
Proof.
  intros H1 H2. unfold ensure_chat_parties.
  now rewrite (ensure_present _ _ _ _ _ H1), (ensure_present _ _ _ _ _ H2).
Qed.

Lemma fold_parties_other_tables now l db :
  let db' := fold_left (ensure_chat_parties now) l db in
  users db' = users db /\ chats db' = chats db
  /\ messages db' = messages db
  /\ file_attachments db' = file_attachments db
  /\ uploads db' = uploads db.
Proof.
  revert db. induction l as [|chat l IH]; intros db; simpl; [auto 6|].
  destruct (IH (ensure_chat_parties now db chat)) as [-> [-> [-> [-> ->]]]].
  apply parties_other_tables.
Qed.

Lemma fold_parties_query_mono now l db c u m :
  query_active_member db c u = Some m ->
  query_active_member (fold_left (ensure_chat_parties now) l db) c u
  = Some m.
Proof.
  revert db. induction l as [|chat l IH]; intros db H; simpl; [exact H|].
  apply IH. now apply parties_query_mono.
Qed.

Lemma fold_parties_heals now l db chat :
  In chat l ->
  let db' := fold_left (ensure_chat_parties now) l db in
  (exists m, query_active_member db' (Chat.id chat) (Chat.creator_id chat)
             = Some m)
  /\ (exists m, query_active_member db' (Chat.id chat)
                                    (Chat.recipient_id chat) = Some m).
Proof.
  revert db. induction l as [|x l IH]; intros db Hin; simpl; [destruct Hin|].
  destruct Hin as [->|Hin]; [|now apply IH].
  destruct (parties_heals now db chat) as [[m1 H1] [m2 H2]].
  split; [exists m1 | exists m2]; now apply fold_parties_query_mono.
Qed.

Lemma fold_parties_keeps_at_most_one_active now l db :
  at_most_one_active db ->
  at_most_one_active (fold_left (ensure_chat_parties now) l db).
Proof.
  revert db. induction l as [|x l IH]; intros db H; simpl; [exact H|].
  apply IH. now apply parties_keeps_at_most_one_active.
Qed.

Lemma fold_parties_members_extend now l db :
  exists added,
    chat_members (fold_left (ensure_chat_parties now) l db)
    = chat_members db ++ added
    /\ Forall (fun m => In (ChatMember.chat_id m) (map Chat.id l)) added.
Proof.
  revert db. induction l as [|x l IH]; intros db; simpl.
  - exists []. now rewrite app_nil_r.
  - destruct (IH (ensure_chat_parties now db x)) as [l2 [E2 F2]].
    destruct (parties_members_extend now db x) as [l1 [E1 F1]].
    exists (l1 ++ l2). rewrite E2, E1, app_assoc. split; [reflexivity|].
    apply Forall_app. split.
    + eapply Forall_impl; [|exact F1]. intros m Hm. now left.
    + eapply Forall_impl; [|exact F2]. intros m Hm. now right.
Qed.

Lemma fold_parties_noop now l db :
  (forall chat, In chat l ->
     (exists m, query_active_member db (Chat.id chat) (Chat.creator_id chat)
                = Some m)
     /\ (exists m, query_active_member db (Chat.id chat)
                                       (Chat.recipient_id chat) = Some m)) ->
  fold_left (ensure_chat_parties now) l db = db.
Proof.
  induction l as [|x l IH]; intros H; simpl; [reflexivity|].
  destruct (H x (or_introl eq_refl)) as [[m1 H1] [m2 H2]].
  rewrite (parties_noop _ _ _ _ _ H1 H2). apply IH.
  intros chat Hin. apply H. now right.
Qed.

Lemma get_chat_stored db chat_id chat :
  get_chat db chat_id = Some chat ->
  In chat (chats db) /\ Chat.id chat = chat_id.
Proof.
  intros H. split; [|exact (get_chat_id _ _ _ H)].
  unfold get_chat in H. now apply find_some in H.
Qed.

(** ** The startup hook *)


(** X8.  The startup hook is idempotent: on a session in which both
    parties of every chat already hold an ACTIVE row it changes nothing,
    and so running it a second time changes nothing. *)
Theorem lifespan_startup_idempotent (now now' : Z) (db : Session) :
  (parties_are_members db -> lifespan_startup now db = db)
  /\ lifespan_startup now' (lifespan_startup now db)
     = lifespan_startup now db.
Proof.
  assert (forall t d, parties_are_members d -> lifespan_startup t d = d)
    as Hnoop.
  { intros t d H. unfold lifespan_startup. now apply fold_parties_noop. }
  split; [apply Hnoop|].
  apply Hnoop. intros chat Hin. unfold lifespan_startup in *.
  destruct (fold_parties_other_tables now (chats db) db) as [_ [Hc _]].
  rewrite Hc in Hin. now apply fold_parties_heals.
Qed.


(** ** Listing the chats of a user *)

Lemma filter_none {A} (p : A -> bool) (l : list A) :
  (forall x, In x l -> p x = false) -> filter p l = [].
Proof.
  induction l as [|x l IH]; intros H; simpl; [reflexivity|].
  rewrite (H x (or_introl eq_refl)). apply IH. intros y Hy. apply H. now right.
Qed.

Lemma existsb_eqb_In (z : Z) (l : list Z) :
  existsb (Z.eqb z) l = true <-> In z l.
Proof.
  rewrite existsb_exists. split.
  - intros [x [Hin Heq]]. apply Z.eqb_eq in Heq. now subst.
  - intros Hin. exists z. split; [exact Hin | apply Z.eqb_refl].
Qed.

Lemma get_user_chats_eq now db user_id :
  get_user_chats now db user_id =
  (filter (fun c => existsb (Z.eqb (Chat.id c))
                            (active_chat_ids db user_id
                             ++ map Chat.id (party_chats db user_id)))
          (chats db),
   fold_left (ensure_chat_parties now) (party_chats db user_id) db).
Proof.
  unfold get_user_chats. fold (active_chat_ids db user_id).
  fold (party_chats db user_id).
  destruct (fold_parties_other_tables now (party_chats db user_id) db)
    as [_ [-> _]].
  destruct (active_chat_ids db user_id
            ++ map Chat.id (party_chats db user_id)) as [|z ids] eqn:E.
  - now rewrite filter_none.
  - reflexivity.
Qed.

Lemma NoDup_map_injective {A B} (f : A -> B) (l : list A) (x y : A) :
  NoDup (map f l) -> In x l -> In y l -> f x = f y -> x = y.
Proof.
  induction l as [|a l IH]; simpl; intros Hnd Hx Hy Hf; [destruct Hx|].
  inversion Hnd as [|? ? Hnotin Hnd']; subst.
  destruct Hx as [->|Hx], Hy as [->|Hy]; auto.
  - exfalso. apply Hnotin. rewrite Hf. now apply in_map.
  - exfalso. apply Hnotin. rewrite <- Hf. now apply in_map.
Qed.

(** Selecting chats keeps their ids distinct. *)
Lemma chat_ids_of_selection (keep : Chat.t -> bool) (stored : list Chat.t) :
  NoDup (map Chat.id stored) -> NoDup (map Chat.id (filter keep stored)).
Proof.
  intros Hkey. induction stored as [|c stored IH]; simpl; [constructor|].
  simpl in Hkey. apply NoDup_cons_iff in Hkey. destruct Hkey as [Hc Hrest].
  destruct (keep c); simpl; [|now apply IH].
  apply NoDup_cons; [|now apply IH].
  intros Hin. apply Hc. apply in_map_iff in Hin.
  destruct Hin as [x [<- Hx]]. apply filter_In in Hx. now apply in_map.
Qed.

(** X10.  With chat ids a primary key, [get_user_chats] returns exactly
    the stored chats in which the user holds an ACTIVE row or is creator
    or recipient, every such chat once (also when it is reachable both
    ways), in the order of the chat table. *)
Theorem get_user_chats_result (now : Z) (db : Session) (user_id : Z) :
  NoDup (map Chat.id (chats db)) ->
  let listed := fst (get_user_chats now db user_id) in
  (forall c,
      In c listed <->
      In c (chats db)
      /\ ((exists m, In m (chat_members db)
                     /\ ChatMember.chat_id m = Chat.id c
                     /\ ChatMember.user_id m = user_id
                     /\ ChatMember.status m = ACTIVE)
          \/ Chat.creator_id c = user_id
          \/ Chat.recipient_id c = user_id))
  /\ NoDup (map Chat.id listed)
  /\ (exists keep, listed = filter keep (chats db)).
Proof.
  intros Hnd listed. subst listed. rewrite get_user_chats_eq; simpl.
  split; [|split].
  - intros c. rewrite filter_In, existsb_eqb_In, in_app_iff.
    unfold active_chat_ids, party_chats.
    rewrite !in_map_iff. split.
    + intros [Hc [[m [Hid Hm]]|[c' [Hid Hc']]]]; (split; [exact Hc|]).
      * left. apply filter_In in Hm. destruct Hm as [Hm Hp].
        rewrite andb_true_iff, Z.eqb_eq, MemberStatus_eqb_eq in Hp.
        exists m. tauto.
      * right. apply filter_In in Hc'. destruct Hc' as [Hin' Hp].
        assert (c' = c) as ->
            by (eapply NoDup_map_injective; eauto).
        now rewrite orb_true_iff, !Z.eqb_eq in Hp.
    + intros [Hc [[m [Hm [Hid [Hu Hs]]]]|Hrole]]; (split; [exact Hc|]).
      * left. exists m. split; [exact Hid|]. apply filter_In.
        split; [exact Hm|].
        rewrite andb_true_iff, Z.eqb_eq, MemberStatus_eqb_eq. tauto.
      * right. exists c. split; [reflexivity|]. apply filter_In.
        split; [exact Hc|]. now rewrite orb_true_iff, !Z.eqb_eq.
  - now apply chat_ids_of_selection.
  - eexists; reflexivity.
Qed.


Lemma existsb_absorb {A} (f : A -> bool) (l1 l2 l3 : list A) :
  (forall x, In x l2 -> In x l3) ->
  existsb f (l1 ++ l2 ++ l3) = existsb f (l1 ++ l3).
Proof.
  intros Hsub. rewrite !existsb_app.
  destruct (existsb f l1); simpl; [reflexivity|].
  destruct (existsb f l2) eqn:E2; simpl; [|reflexivity].
  apply existsb_exists in E2. destruct E2 as [x [Hx Hf]].
  symmetry. apply existsb_exists. exists x. split; [now apply Hsub | exact Hf].
Qed.

(** X12.  [get_user_chats] can be repeated: a second call returns the
    same list and writes nothing.  A call only appends membership rows,
    leaves the other tables as they are and gives no (chat, user) pair a
    second ACTIVE row. *)
Theorem get_user_chats_again (now now' : Z) (db : Session) (user_id : Z) :
  let r := get_user_chats now db user_id in
  get_user_chats now' (snd r) user_id = r
  /\ (exists added, chat_members (snd r) = chat_members db ++ added)
  /\ (at_most_one_active db -> at_most_one_active (snd r))
  /\ users (snd r) = users db /\ chats (snd r) = chats db
  /\ messages (snd r) = messages db.
Proof.
  intros r. subst r. rewrite !get_user_chats_eq; simpl.
  set (l := party_chats db user_id).
  set (db1 := fold_left (ensure_chat_parties now) l db).
  destruct (fold_parties_other_tables now l db) as [Hu [Hc [Hm _]]].
  fold db1 in Hu, Hc, Hm.
  destruct (fold_parties_members_extend now l db) as [added [Hadd Hall]].
  fold db1 in Hadd.
  assert (party_chats db1 user_id = l) as Hl
      by (unfold party_chats; now rewrite Hc).
  split; [|split; [|split]].
  - rewrite Hl, Hc. f_equal.
    + apply filter_ext. intros c.
      unfold active_chat_ids. rewrite Hadd, filter_app, map_app.
      rewrite <- app_assoc. apply existsb_absorb.
      intros z Hz. apply in_map_iff in Hz. destruct Hz as [m [<- Hm']].
      apply filter_In in Hm'. destruct Hm' as [Hm' _].
      rewrite Forall_forall in Hall. now apply Hall.
    + apply fold_parties_noop. intros chat Hin.
      now apply fold_parties_heals.
  - now exists added.
  - apply fold_parties_keeps_at_most_one_active.
  - auto.
Qed.

(** ** Entry points that check membership first *)

Lemma is_user_in_chat_result now db chat_id user_id :
  is_user_in_chat now db chat_id user_id =
  (member_view db chat_id user_id,
   if member_view db chat_id user_id
   then _ensure_user_membership now db chat_id user_id
   else db).
Proof.
  unfold is_user_in_chat, member_view.
  destruct (query_active_member db chat_id user_id) as [m|] eqn:E.
  - now rewrite (ensure_present _ _ _ _ _ E).
  - destruct (get_chat db chat_id) as [chat|]; [|reflexivity].
    now destruct ((Chat.creator_id chat =? user_id)
                  || (Chat.recipient_id chat =? user_id)).
Qed.

Lemma member_view_of_row db chat_id user_id m :
  query_active_member db chat_id user_id = Some m ->
  member_view db chat_id user_id = true.
Proof. unfold member_view. now intros ->. Qed.

(** X13.  [send_message_endpoint] answers 403 and writes nothing when
    the membership check fails.  When it passes, the check inside
    [send_message] cannot fail any more: the message is stored, in the
    chat of the path, with the content and type of the body.  The
    [chat_id] of the body has no influence on the outcome. *)
Theorem send_message_endpoint_outcomes
        (now : Z) (db : Session) (chat_id : Z) (message : MessageCreate.t)
        (current_user : User.t) :
  let user_id := User.id current_user in
  let r := send_message_endpoint now db chat_id message current_user in
  (fst (is_user_in_chat now db chat_id user_id) = false ->
   r = (Raise (mkHTTPException HTTP_403_FORBIDDEN
                               "You are not a member of this chat"), db))
  /\ (fst (is_user_in_chat now db chat_id user_id) = true ->
      let stored :=
        Message.mk (next_id (map Message.id (messages db)))
                   (MessageCreate.content message)
                   (MessageCreate.message_type message)
                   user_id chat_id now None false in
      r = (Ok stored,
           set_messages (_ensure_user_membership now db chat_id user_id)
                        (messages db ++ [stored])))
  /\ (forall body_chat_id,
        send_message_endpoint
          now db chat_id
          (MessageCreate.mk (MessageCreate.content message)
                            (MessageCreate.message_type message)
                            body_chat_id)
          current_user = r).
Proof.
  intros user_id r. subst r user_id.
  unfold send_message_endpoint.
  rewrite is_user_in_chat_result; simpl.
  destruct (member_view db chat_id (User.id current_user)) eqn:Hview; simpl.
  - split; [discriminate|]. split; [|reflexivity].
    intros _. rewrite send_message_unfold; simpl.
    destruct (ensure_then_query now db chat_id (User.id current_user))
      as [m Hm].
    rewrite (member_view_of_row _ _ _ _ Hm).
    now rewrite (ensure_present _ _ _ _ _ Hm), ensure_messages.
  - split; [reflexivity|]. split; [discriminate | reflexivity].
Qed.

(** X14.  [get_chat_participants_endpoint] answers 403 to a caller who
    is not a member.  A stored user who passes the check is in the list
    that is returned, also when the membership was only implied by the
    chat row: the check has written the missing row before the list is
    read.  Everyone listed is a stored user with an ACTIVE row. *)
Theorem get_chat_participants_endpoint_lists_caller
        (now : Z) (db : Session) (chat_id : Z) (current_user : User.t) :
  In current_user (users db) ->
  let r := get_chat_participants_endpoint now db chat_id current_user in
  (fst (is_user_in_chat now db chat_id (User.id current_user)) = false ->
   r = (Raise (mkHTTPException HTTP_403_FORBIDDEN
                               "You are not a member of this chat"), db))
  /\ (fst (is_user_in_chat now db chat_id (User.id current_user)) = true ->
      exists listed,
        fst r = Ok listed
        /\ In current_user listed
        /\ (forall v, In v listed ->
                      In v (users db)
                      /\ exists m, query_active_member (snd r) chat_id
                                                       (User.id v) = Some m)).
Proof.
  intros Hstored r. subst r. unfold get_chat_participants_endpoint.
  rewrite is_user_in_chat_result; simpl.
  destruct (member_view db chat_id (User.id current_user)) eqn:Hview; simpl.
  - split; [discriminate|]. intros _. eexists. split; [reflexivity|].
    destruct (ensure_other_tables now db chat_id (User.id current_user))
      as [Hu _].
    split.
    + apply get_chat_participants_spec. rewrite Hu.
      split; [exact Hstored | apply ensure_then_query].
    + intros v Hv. apply get_chat_participants_spec in Hv.
      now rewrite Hu in Hv.
  - split; [reflexivity | discriminate].
Qed.

(** ** Sending, deleting, editing and listing together *)

Lemma get_chat_messages_In db chat_id skip limit m :
  In m (get_chat_messages db chat_id skip limit) ->
  In m (messages db)
  /\ Message.chat_id m = chat_id
  /\ Message.is_deleted m = false.
Proof.
  unfold get_chat_messages. intros Hin.
  set (p := fun m => (Message.chat_id m =? chat_id)
                     && Bool.eqb (Message.is_deleted m) false) in *.
  assert (Forall (fun m => In m (filter p (messages db)))
                 (firstn limit
                    (skipn skip
                       (order_by_created_at_desc
                          (filter p (messages db)))))) as Hall.
  { apply Forall_firstn, Forall_skipn.
    eapply Permutation_Forall;
      [apply Permutation_sym, order_by_created_at_desc_perm|].
    apply Forall_forall. auto. }
  rewrite Forall_forall in Hall. apply Hall in Hin.
  apply filter_In in Hin. destruct Hin as [Hin Hp]. subst p; simpl in Hp.
  apply andb_true_iff in Hp. destruct Hp as [Hc Hd].
  apply Z.eqb_eq in Hc. apply eqb_prop in Hd. auto.
Qed.

Lemma order_newest_last (l : list Message.t) (m : Message.t) :
  (forall x, In x l -> Message.created_at x < Message.created_at m) ->
  order_by_created_at_desc (l ++ [m]) = m :: order_by_created_at_desc l.
Proof.
  induction l as [|x l IH]; intros H; simpl; [reflexivity|].
  rewrite IH by (intros y Hy; apply H; now right). simpl.
  assert (Message.created_at x < Message.created_at m) as Hx
      by (apply H; now left).
  apply Z.leb_gt in Hx. now rewrite Hx.
Qed.

Lemma send_message_success now db message_data author_id message db' :
  send_message now db message_data author_id = (Ok message, db') ->
  message =
  Message.mk (next_id (map Message.id (messages db)))
             (MessageData.content message_data)
             (match MessageData.message_type message_data with
              | Some t => t
              | None => TEXT
              end)
             author_id (MessageData.chat_id message_data) now None false
  /\ messages db' = messages db ++ [message].
Proof.
  rewrite send_message_unfold; cbv zeta.
  destruct (member_view db (MessageData.chat_id message_data) author_id);
    [|discriminate].
  intros [= <- <-]. split; reflexivity.
Qed.

(** X15.  A message that was just sent heads the listing of its chat:
    when every stored message of the chat is older than the new one, the
    first page after the send is the new message followed by the page
    before the send (one entry shorter). *)
Theorem sent_message_is_listed_first
        (now : Z) (db : Session) (message_data : MessageData.t)
        (author_id : Z) (message : Message.t) (db' : Session) (limit : nat) :
  send_message now db message_data author_id = (Ok message, db') ->
  (forall m, In m (messages db) ->
             Message.chat_id m = MessageData.chat_id message_data ->
             Message.created_at m < now) ->
  get_chat_messages db' (MessageData.chat_id message_data) 0 (S limit)
  = message
      :: get_chat_messages db (MessageData.chat_id message_data) 0 limit.
Proof.
  intros Hsend Holder.
  destruct (send_message_success _ _ _ _ _ _ Hsend) as [Hm Hms].
  unfold get_chat_messages. rewrite Hms, filter_app.
  assert (filter (fun m => (Message.chat_id m
                            =? MessageData.chat_id message_data)
                           && Bool.eqb (Message.is_deleted m) false)
                 [message] = [message]) as ->.
  { rewrite Hm; simpl. now rewrite Z.eqb_refl. }
  rewrite order_newest_last; [reflexivity|].
  intros x Hx. apply filter_In in Hx. destruct Hx as [Hx Hp].
  apply andb_true_iff in Hp. destruct Hp as [Hc _]. apply Z.eqb_eq in Hc.
  rewrite Hm; simpl. now apply Holder.
Qed.

Lemma delete_message_success now db message_id user_id b db' :
  delete_message now db message_id user_id = (Ok b, db') ->
  exists m m',
    get_message db message_id = Some m
    /\ Message.author_id m = user_id
    /\ Message.id m' = message_id
    /\ Message.author_id m' = user_id
    /\ Message.is_deleted m' = true
    /\ db' = set_messages db (update_message message_id m' (messages db)).
Proof.
  unfold delete_message.
  destruct (get_message db message_id) as [m|] eqn:Hget; [|discriminate].
  destruct (Message.author_id m =? user_id) eqn:Ha; simpl; [|discriminate].
  apply Z.eqb_eq in Ha. pose proof (get_message_id _ _ _ Hget) as Hid.
  intros [= <- <-]. exists m.
  exists (if Message.is_deleted m then m
          else Message.mk (Message.id m) (Message.content m)
                          (Message.message_type m) (Message.author_id m)
                          (Message.chat_id m) (Message.created_at m)
                          (Some now) true).
  split; [reflexivity|]. split; [exact Ha|].
  destruct (Message.is_deleted m) eqn:Hd; simpl; repeat split; auto.
Qed.

Lemma update_message_In message_id m' l x :
  NoDup (map Message.id l) ->
  In x (update_message message_id m' l) ->
  x = m' \/ (In x l /\ Message.id x <> message_id).
Proof.
  induction l as [|y l IH]; simpl; intros Hnd Hin; [destruct Hin|].
  inversion Hnd as [|? ? Hnotin Hnd']; subst.
  destruct (Z.eqb_spec (Message.id y) message_id) as [Hy|Hy].
  - destruct Hin as [<-|Hin]; [now left|]. right.
    split; [now right|]. intros Hx. apply Hnotin.
    rewrite Hy, <- Hx. now apply in_map.
  - destruct Hin as [<-|Hin]; [right; auto|].
    destruct (IH Hnd' Hin) as [->|[Hx Hne]]; [now left | right; auto].
Qed.

(** X16.  With message ids a primary key, a message deleted by its
    author is gone from every listing: after a successful
    [delete_message] no page of any chat contains a message with that
    id. *)
Theorem deleted_message_is_not_listed
        (now : Z) (db : Session) (message_id user_id : Z) (b : bool)
        (db' : Session) :
  message_ids_unique db ->
  delete_message now db message_id user_id = (Ok b, db') ->
  forall chat_id skip limit m,
    In m (get_chat_messages db' chat_id skip limit) ->
    Message.id m <> message_id.
Proof.
  intros Hunique Hdel chat_id skip limit m Hin.
  destruct (delete_message_success _ _ _ _ _ _ Hdel)
    as [m0 [m' [_ [_ [Hid [_ [Hdeleted ->]]]]]]].
  apply get_chat_messages_In in Hin. destruct Hin as [Hin [_ Hlive]].
  simpl in Hin. apply (update_message_In _ _ _ _ Hunique) in Hin.
  destruct Hin as [->|[_ Hne]]; [congruence | exact Hne].
Qed.

(** X17.  Soft deletion is final for editing: after a successful
    [delete_message] every [edit_message] of that id is refused and
    writes nothing, with 400 for the author and 403 for anybody else. *)
Theorem deleted_message_cannot_be_edited
        (now now' : Z) (db : Session) (message_id user_id : Z) (b : bool)
        (db' : Session) (new_content : string) (editor_id : Z) :
  delete_message now db message_id user_id = (Ok b, db') ->
  (editor_id = user_id ->
   edit_message now' db' message_id new_content editor_id
   = (Raise (mkHTTPException HTTP_400_BAD_REQUEST
                             "Cannot edit deleted message"), db'))
  /\ (editor_id <> user_id ->
      edit_message now' db' message_id new_content editor_id
      = (Raise (mkHTTPException HTTP_403_FORBIDDEN
                                "You can only edit your own messages"), db')).
Proof.
  intros Hdel.
  destruct (delete_message_success _ _ _ _ _ _ Hdel)
    as [m0 [m' [Hget [_ [Hid [Hauthor [Hdeleted ->]]]]]]].
  assert (get_message
            (set_messages db (update_message message_id m' (messages db)))
            message_id = Some m') as Hget'.
  { unfold get_message in *; simpl.
    now apply (find_update_message _ m0). }
  unfold edit_message. rewrite Hget', Hauthor, Hdeleted. split.
  - intros ->. now rewrite Z.eqb_refl.
  - intros Hne. assert ((user_id =? editor_id) = false) as ->
        by (apply Z.eqb_neq; congruence).
    reflexivity.
Qed.

(** ** Uploads *)

Lemma upload_file_success now timestamp db file message_id att db' :
  upload_file now timestamp db file message_id = (Ok att, db') ->
  let path :=
    os_path_join UPLOAD_DIR (timestamp ++ "_" ++ UploadFile.filename file) in
  allowed_extension (file_extension (UploadFile.filename file)) = true
  /\ FileAttachment.filename att = UploadFile.filename file
  /\ FileAttachment.file_path att = path
  /\ FileAttachment.file_size att = UploadFile.file file
  /\ uploads db' = write_file path (UploadFile.file file) (uploads db)
  /\ file_attachments db' = file_attachments db ++ [att].
Proof.
  unfold upload_file.
  destruct (match UploadFile.size file with
            | Some s => negb (s =? 0) && (MAX_FILE_SIZE <? s)
            | None => false
            end); [discriminate|].
  destruct (allowed_extension (file_extension (UploadFile.filename file)));
    simpl; [|discriminate].
  intros [= <- <-]; simpl. rewrite getsize_write_file. auto 7.
Qed.

(** X18.  The stored name is the timestamp and the original name, so two
    accepted uploads of the same file name within the same second share
    one path: the second overwrites the file of the first.  The first
    attachment row stays, keeps its recorded size, and now points at the
    bytes of the second upload. *)
Theorem upload_same_name_same_second
        (now1 now2 : Z) (timestamp : string) (db : Session)
        (file1 file2 : UploadFile.t) (message1 message2 : Z)
        (att1 att2 : FileAttachment.t) (db1 db2 : Session) :
  upload_file now1 timestamp db file1 message1 = (Ok att1, db1) ->
  upload_file now2 timestamp db1 file2 message2 = (Ok att2, db2) ->
  UploadFile.filename file1 = UploadFile.filename file2 ->
  FileAttachment.file_path att1 = FileAttachment.file_path att2
  /\ In att1 (file_attachments db2)
  /\ In att2 (file_attachments db2)
  /\ FileAttachment.file_size att1 = UploadFile.file file1
  /\ getsize (FileAttachment.file_path att1) (uploads db2)
     = UploadFile.file file2
  /\ List.length (filter (fun e => String.eqb (fst e)
                                     (FileAttachment.file_path att1))
                         (uploads db2)) = 1%nat.
Proof.
  intros H1 H2 Hname.
  destruct (upload_file_success _ _ _ _ _ _ _ H1)
    as [_ [_ [Hp1 [Hs1 [_ Ha1]]]]].
  destruct (upload_file_success _ _ _ _ _ _ _ H2)
    as [_ [_ [Hp2 [_ [Hu2 Ha2]]]]].
  rewrite <- Hname in Hp2, Hu2. rewrite <- Hp1 in Hp2, Hu2.
  split; [congruence|]. split.
  - rewrite Ha2, Ha1. apply in_or_app. left. apply in_or_app. right.
    now left.
  - split; [rewrite Ha2; apply in_or_app; right; now left|].
    split; [exact Hs1|]. rewrite Hu2. split.
    + apply getsize_write_file.
    + unfold write_file; simpl. rewrite String.eqb_refl; simpl.
      f_equal. apply length_zero_iff_nil. apply filter_none.
      intros e He. apply filter_In in He. destruct He as [_ He].
      now apply negb_true_iff in He.
Qed.

Lemma append_empty_r (s : string) : (s ++ "")%string = s.
Proof. induction s as [|c s IH]; simpl; [reflexivity | now rewrite IH]. Qed.

Lemma substring_whole (s : string) : substring 0 (String.length s) s = s.
Proof. induction s as [|c s IH]; simpl; [reflexivity | now rewrite IH]. Qed.

Lemma substring_split (n : nat) (s : string) :
  (n <= String.length s)%nat ->
  (substring 0 n s ++ substring n (String.length s - n) s)%string = s.
Proof.
  revert n. induction s as [|c s IH]; intros [|n] Hn; simpl in *;
    try reflexivity; try lia.
  - now rewrite substring_whole.
  - rewrite IH by lia. reflexivity.
Qed.

Lemma rfind_from_bound (c : ascii) (s : string) (i : Z) :
  rfind_from c s i = -1
  \/ (i <= rfind_from c s i < i + Z.of_nat (String.length s)).
Proof.
  revert i. induction s as [|a s IH]; intros i; simpl; [now left|].
  destruct (IH (i + 1)) as [Hr|Hr].
  - rewrite Hr; simpl. destruct (Ascii.eqb a c); [right; lia | now left].
  - destruct (0 <=? rfind_from c s (i + 1)) eqn:E; [right; lia|].
    destruct (Ascii.eqb a c); [right; lia | now left].
Qed.

Lemma has_stem_positive (p : string) (k n : nat) :
  has_stem p k n = true -> n <> 0%nat.
Proof. destruct n; simpl; [discriminate | lia]. Qed.

(** [os.path.splitext]: root and extension give the path back, and an
    extension is never all there is. *)
Lemma splitext_parts (p : string) :
  (fst (splitext p) ++ snd (splitext p))%string = p
  /\ (snd (splitext p) <> EmptyString -> fst (splitext p) <> EmptyString).
Proof.
  unfold splitext, rfind.
  pose proof (rfind_from_bound "/" p 0) as Hs.
  pose proof (rfind_from_bound "." p 0) as Hd.
  set (s := rfind_from "/" p 0) in *.
  set (d := rfind_from "." p 0) in *.
  clearbody s d.
  destruct ((s <? d)
            && has_stem p (Z.to_nat (s + 1)) (Z.to_nat (d - (s + 1))))
    eqn:E; cbn [fst snd].
  - apply andb_true_iff in E. destruct E as [Hlt Hstem].
    apply Z.ltb_lt in Hlt. apply has_stem_positive in Hstem.
    assert (1 <= Z.to_nat d <= String.length p)%nat as Hn by lia.
    split; [apply substring_split; lia|]. intros _.
    destruct p as [|c p]; [cbn [String.length] in Hn; lia|].
    destruct (Z.to_nat d) as [|k]; [lia|]. simpl. discriminate.
  - split; [apply append_empty_r|]. intros H. now contradiction H.
Qed.

Lemma allowed_extension_In (ext : string) :
  allowed_extension ext = true <-> In ext ALLOWED_EXTENSIONS.
Proof.
  unfold allowed_extension. rewrite existsb_exists. split.
  - intros [x [Hin Heq]]. apply String.eqb_eq in Heq. now subst.
  - intros Hin. exists ext. split; [exact Hin | apply String.eqb_refl].
Qed.

(** X19.  Every accepted upload has a file name made of a non-empty
    stem followed by an extension that, in lower case, is one of the
    eight allowed ones: names without an extension, and names that are
    nothing but an extension (such as [.txt]), are refused. *)
Theorem accepted_upload_file_name
        (now : Z) (timestamp : string) (db : Session) (file : UploadFile.t)
        (message_id : Z) (att : FileAttachment.t) (db' : Session) :
  upload_file now timestamp db file message_id = (Ok att, db') ->
  exists stem ext,
    FileAttachment.filename att = (stem ++ ext)%string
    /\ stem <> EmptyString
    /\ In (lower ext) ALLOWED_EXTENSIONS.
Proof.
  intros Hup.
  destruct (upload_file_success _ _ _ _ _ _ _ Hup) as [Hext [Hname _]].
  destruct (splitext_parts (UploadFile.filename file)) as [Hcat Hstem].
  exists (fst (splitext (UploadFile.filename file))),
         (snd (splitext (UploadFile.filename file))).
  apply allowed_extension_In in Hext. unfold file_extension in Hext.
  split; [now rewrite Hname, Hcat|]. split; [|exact Hext].
  apply Hstem. intros Hempty. rewrite Hempty in Hext. simpl in Hext.
  repeat (destruct Hext as [Hext|Hext]; [discriminate|]). exact Hext.
Qed.

(** ** Registration *)

Lemma find_key_none {A} (f : A -> string) (k : string) (l : list A) :
  find (fun x => String.eqb (f x) k) l = None -> ~ In k (map f l).
Proof.
  intros Hnone Hin. apply in_map_iff in Hin. destruct Hin as [x [Hk Hx]].
  apply (find_none _ _ Hnone) in Hx. simpl in Hx.
  rewrite Hk, String.eqb_refl in Hx. discriminate.
Qed.

Lemma NoDup_snoc {A} (l : list A) (x : A) :
  NoDup l -> ~ In x l -> NoDup (l ++ [x]).
Proof.
  induction l as [|a l IH]; simpl; intros Hnd Hx.
  - constructor; [tauto | constructor].
  - inversion Hnd as [|? ? Hnotin Hnd']; subst. constructor.
    + rewrite in_app_iff. simpl. intuition.
    + apply IH; [exact Hnd' | tauto].
Qed.

(** X20.  [register] answers 400 "Email already registered" when a
    stored user has the e-mail (also when the user name is taken as
    well), 400 "Username already taken" when only the user name is
    taken, and writes nothing in both cases.  Otherwise it appends the
    user with the hashed password, never the plain one. *)
Theorem register_outcomes
        (pwd_hash : string -> string) (db : Session) (user : UserCreate.t) :
  let r := register pwd_hash db user in
  (In (UserCreate.email user) (map User.email (users db)) ->
   r = (Raise (mkHTTPException HTTP_400_BAD_REQUEST
                               "Email already registered"), db))
  /\ (~ In (UserCreate.email user) (map User.email (users db)) ->
      In (UserCreate.username user) (map User.username (users db)) ->
      r = (Raise (mkHTTPException HTTP_400_BAD_REQUEST
                                  "Username already taken"), db))
  /\ (~ In (UserCreate.email user) (map User.email (users db)) ->
      ~ In (UserCreate.username user) (map User.username (users db)) ->
      let db_user :=
        User.mk (next_id (map User.id (users db)))
                (UserCreate.username user) (UserCreate.email user)
                (pwd_hash (UserCreate.password user)) in
      r = (Ok db_user, set_users db (users db ++ [db_user]))).
Proof.
  intros r. subst r. unfold register.
  assert (forall (f : User.t -> string) k,
             In k (map f (users db)) ->
             exists u, find (fun x => String.eqb (f x) k) (users db) = Some u)
    as Hfound.
  { intros f k Hin. apply in_map_iff in Hin. destruct Hin as [x [Hk Hx]].
    apply (find_exists (fun x => String.eqb (f x) k) _ x Hx).
    rewrite Hk. apply String.eqb_refl. }
  assert (forall (f : User.t -> string) k,
             ~ In k (map f (users db)) ->
             find (fun x => String.eqb (f x) k) (users db) = None)
    as Hmissing.
  { intros f k Hnot.
    destruct (find (fun x => String.eqb (f x) k) (users db)) as [u|] eqn:E;
      [|reflexivity].
    exfalso. apply Hnot. apply find_some in E. destruct E as [Hin Heq].
    apply String.eqb_eq in Heq. rewrite <- Heq. now apply in_map. }
  split; [|split].
  - intros Hin. now destruct (Hfound User.email _ Hin) as [u ->].
  - intros Hnot Hin. rewrite (Hmissing User.email _ Hnot).
    now destruct (Hfound User.username _ Hin) as [u ->].
  - intros Hnot1 Hnot2.
    now rewrite (Hmissing User.email _ Hnot1),
      (Hmissing User.username _ Hnot2).
Qed.

(** X21.  [register] keeps the user table sound: if no two stored users
    share an e-mail or a user name, the same holds after the call,
    whatever its outcome, and stored users are never changed or
    removed. *)
Theorem register_keeps_users_unique
        (pwd_hash : string -> string) (db : Session) (user : UserCreate.t) :
  users_unique db ->
  let db' := snd (register pwd_hash db user) in
  users_unique db'
  /\ (exists added, users db' = users db ++ added
                    /\ (List.length added <= 1)%nat).
Proof.
  intros [Hemail Hname] db'. subst db'. unfold register.
  destruct (find (fun u => String.eqb (User.email u) (UserCreate.email user))
                 (users db)) as [u|] eqn:E1; simpl.
  - split; [now split|]. exists []. rewrite app_nil_r. simpl. auto.
  - destruct (find (fun u => String.eqb (User.username u)
                                        (UserCreate.username user))
                   (users db)) as [u|] eqn:E2; simpl.
    + split; [now split|]. exists []. rewrite app_nil_r. simpl. auto.
    + split.
      * unfold users_unique; simpl.
        split; rewrite map_app; simpl; apply NoDup_snoc; auto.
        -- exact (find_key_none User.email _ _ E1).
        -- exact (find_key_none User.username _ _ E2).
      * eexists. split; [reflexivity | simpl; lia].
Qed.

(** ** Tokens *)

Lemma is_token_blacklisted_In token db :
  is_token_blacklisted token db = true <->
  In token (map BlacklistedToken.token (blacklisted_tokens db)).
Proof.
  unfold is_token_blacklisted.
  destruct (find (fun b => String.eqb (BlacklistedToken.token b) token)
                 (blacklisted_tokens db)) as [b|] eqn:E.
  - split; [intros _|reflexivity]. apply find_some in E.
    destruct E as [Hin Heq]. apply String.eqb_eq in Heq.
    rewrite <- Heq. now apply in_map.
  - split; [discriminate|]. intros Hin.
    now apply (find_key_none BlacklistedToken.token) in E.
Qed.

Lemma add_token_to_blacklist_committed now jwt_decode token db db' :
  add_token_to_blacklist now jwt_decode token db = Committed db' ->
  is_token_blacklisted token db = false
  /\ tables db' = tables db
  /\ exists row,
      blacklisted_tokens db' = blacklisted_tokens db ++ [row]
      /\ BlacklistedToken.token row = token.
Proof.
  unfold add_token_to_blacklist.
  destruct (existsb (fun b => String.eqb (BlacklistedToken.token b) token)
                    (blacklisted_tokens db)) eqn:E; [discriminate|].
  intros [= <-]; simpl. split.
  - destruct (is_token_blacklisted token db) eqn:Hb; [|reflexivity].
    apply is_token_blacklisted_In in Hb. apply in_map_iff in Hb.
    destruct Hb as [b [Hb Hin]].
    assert (existsb (fun b => String.eqb (BlacklistedToken.token b) token)
                    (blacklisted_tokens db) = true) as Hex.
    { apply existsb_exists. exists b. split; [exact Hin|].
      rewrite Hb. apply String.eqb_refl. }
    congruence.
  - split; [reflexivity|]. eexists. split; reflexivity.
Qed.

(** X22.  Logging out revokes the token: once [add_token_to_blacklist]
    has committed, the token is black-listed, [verify_token] returns
    nothing for it and [get_current_user] answers 401, whatever the
    token decodes to.  The other tables are untouched, and black-listing
    the same token again is rejected by the unique index. *)
Theorem add_token_to_blacklist_revokes
        (now now' : Z) (jwt_decode jwt_decode' : string -> option Payload.t)
        (token : string) (db db' : AuthSession) :
  add_token_to_blacklist now jwt_decode token db = Committed db' ->
  is_token_blacklisted token db' = true
  /\ verify_token jwt_decode' token db' = None
  /\ get_current_user jwt_decode' token db' = Raise credentials_exception
  /\ tables db' = tables db
  /\ add_token_to_blacklist now' jwt_decode' token db' = IntegrityError.
Proof.
  intros Hadd.
  destruct (add_token_to_blacklist_committed _ _ _ _ _ Hadd)
    as [_ [Htables [row [Hrows Htoken]]]].
  assert (is_token_blacklisted token db' = true) as Hb.
  { apply is_token_blacklisted_In. rewrite Hrows, map_app.
    apply in_or_app. right. simpl. now left. }
  split; [exact Hb|].
  split; [unfold verify_token; now rewrite Hb|].
  split; [unfold get_current_user, verify_token; now rewrite Hb|].
  split; [exact Htables|].
  unfold add_token_to_blacklist.
  assert (existsb (fun b => String.eqb (BlacklistedToken.token b) token)
                  (blacklisted_tokens db') = true) as ->; [|reflexivity].
  apply existsb_exists. exists row. split.
  - rewrite Hrows. apply in_or_app. right. now left.
  - rewrite Htoken. apply String.eqb_refl.
Qed.

(** X23.  Revoking one token leaves every other token as it was:
    [verify_token] and [get_current_user] answer for it after the commit
    what they answered before. *)
Theorem add_token_to_blacklist_other_tokens
        (now : Z) (jwt_decode jwt_decode' : string -> option Payload.t)
        (token other : string) (db db' : AuthSession) :
  add_token_to_blacklist now jwt_decode token db = Committed db' ->
  other <> token ->
  is_token_blacklisted other db' = is_token_blacklisted other db
  /\ verify_token jwt_decode' other db' = verify_token jwt_decode' other db
  /\ get_current_user jwt_decode' other db'
     = get_current_user jwt_decode' other db.
Proof.
  intros Hadd Hne.
  destruct (add_token_to_blacklist_committed _ _ _ _ _ Hadd)
    as [_ [Htables [row [Hrows Htoken]]]].
  assert (is_token_blacklisted other db' = is_token_blacklisted other db)
    as Hsame.
  { unfold is_token_blacklisted. rewrite Hrows, find_app.
    destruct (find (fun b => String.eqb (BlacklistedToken.token b) other)
                   (blacklisted_tokens db)); [reflexivity|].
    simpl. rewrite Htoken.
    assert (String.eqb token other = false) as ->; [|reflexivity].
    apply String.eqb_neq. congruence. }
  split; [exact Hsame|].
  unfold get_current_user, verify_token. now rewrite Hsame, Htables.
Qed.

(** X24.  [get_current_user] returns a user exactly when the token is
    not black-listed, decodes, carries a subject, and a stored user has
    that subject as e-mail; the user returned is the first such row.  In
    every other case it answers 401. *)
Theorem get_current_user_outcomes
        (jwt_decode : string -> option Payload.t) (token : string)
        (db : AuthSession) :
  (forall user,
      get_current_user jwt_decode token db = Ok user <->
      is_token_blacklisted token db = false
      /\ exists payload username,
           jwt_decode token = Some payload
           /\ Payload.sub payload = Some username
           /\ find (fun u => String.eqb (User.email u) username)
                   (users (tables db)) = Some user)
  /\ ((forall user, get_current_user jwt_decode token db <> Ok user) ->
      get_current_user jwt_decode token db = Raise credentials_exception)
  /\ (forall user,
        get_current_user jwt_decode token db = Ok user ->
        In user (users (tables db))
        /\ exists payload,
             jwt_decode token = Some payload
             /\ Payload.sub payload = Some (User.email user)).
Proof.
  assert (forall user,
             get_current_user jwt_decode token db = Ok user <->
             is_token_blacklisted token db = false
             /\ exists payload username,
                  jwt_decode token = Some payload
                  /\ Payload.sub payload = Some username
                  /\ find (fun u => String.eqb (User.email u) username)
                          (users (tables db)) = Some user) as Hiff.
  { intros user. unfold get_current_user, verify_token.
    destruct (is_token_blacklisted token db).
    - split; [discriminate | intros [H _]; discriminate].
    - destruct (jwt_decode token) as [payload|].
      + destruct (Payload.sub payload) as [username|] eqn:Hsub.
        * rewrite Hsub.
          destruct (find (fun u => String.eqb (User.email u) username)
                         (users (tables db))) as [u|] eqn:Hfind.
          -- split.
             ++ intros [= <-]. split; [reflexivity|].
                now exists payload, username.
             ++ intros [_ [p [n [Hp [Hn Hf]]]]]. injection Hp as <-.
                rewrite Hsub in Hn. injection Hn as <-. congruence.
          -- split; [discriminate|].
             intros [_ [p [n [Hp [Hn Hf]]]]]. injection Hp as <-.
             rewrite Hsub in Hn. injection Hn as <-. congruence.
        * split; [discriminate|].
          intros [_ [p [n [Hp [Hn _]]]]]. injection Hp as <-. congruence.
      + split; [discriminate|].
        intros [_ [p [n [Hp _]]]]. discriminate. }
  split; [exact Hiff|]. split.
  - intros Hnever. unfold get_current_user in *.
    destruct (verify_token jwt_decode token db) as [payload|];
      [|reflexivity].
    destruct (Payload.sub payload) as [username|]; [|reflexivity].
    destruct (find _ (users (tables db))) as [u|]; [|reflexivity].
    now contradiction (Hnever u).
  - intros user Hok. apply Hiff in Hok.
    destruct Hok as [_ [payload [username [Hp [Hsub Hfind]]]]].
    apply find_some in Hfind. destruct Hfind as [Hin Heq].
    apply String.eqb_eq in Heq. split; [exact Hin|].
    exists payload. split; [exact Hp | now rewrite Heq].
Qed.

(** ** Chats and the membership of their parties *)

(** X25.  A session in which both parties of every chat hold an ACTIVE
    row stays so through [create_private_chat] and
    [get_or_create_private_chat]: a new chat is stored together with the
    rows of its two parties, and nothing is taken from the old ones. *)
Theorem create_private_chat_keeps_parties
        (now : Z) (db : Session) (a b : Z) :
  parties_are_members db ->
  parties_are_members (snd (create_private_chat now db a b))
  /\ parties_are_members (snd (get_or_create_private_chat now db a b)).
Proof.
  intros Hparties.
  assert (parties_are_members (snd (create_private_chat now db a b)))
    as Hcreate.
  { destruct (create_private_chat_cases now db a b)
      as [[e He] | [[ub [c [Hub [Hab [Hq He]]]]] | [ub [Hub [Hab [Hq He]]]]]];
      rewrite He; simpl.
    - exact Hparties.
    - intros chat Hin.
      destruct (ensure_other_tables now
                  (_ensure_user_membership now db (Chat.id c) a)
                  (Chat.id c) b) as [_ [Hc2 _]].
      destruct (ensure_other_tables now db (Chat.id c) a) as [_ [Hc1 _]].
      rewrite Hc2, Hc1 in Hin.
      destruct (Hparties chat Hin) as [[m1 H1] [m2 H2]].
      split; [exists m1 | exists m2];
        now apply ensure_query_mono, ensure_query_mono.
    - intros chat Hin; simpl in Hin. apply in_app_or in Hin.
      unfold query_active_member; simpl. rewrite !find_app.
      destruct Hin as [Hin|[<-|[]]].
      + destruct (Hparties chat Hin) as [[m1 H1] [m2 H2]].
        unfold query_active_member in H1, H2. rewrite H1, H2.
        split; [now exists m1 | now exists m2].
      + simpl. split.
        * destruct (find _ (chat_members db)); [eexists; reflexivity|].
          unfold is_active_member at 1; simpl.
          rewrite !Z.eqb_refl; simpl. eexists; reflexivity.
        * destruct (find _ (chat_members db)); [eexists; reflexivity|].
          unfold is_active_member at 1 2; simpl.
          rewrite !Z.eqb_refl; simpl.
          destruct (a =? b); simpl; eexists; reflexivity. }
  split; [exact Hcreate|].
  unfold get_or_create_private_chat.
  destruct (query_private_chat db a b); [exact Hparties | exact Hcreate].
Qed.

(** ** Instances of the further properties *)

Lemma ledger_session_at_most_one_active : at_most_one_active ledger_session.
Proof.
  intros c u.
  unfold active_rows, is_active_member, ledger_session, chat_members,
    filter, ChatMember.chat_id, ChatMember.user_id, ChatMember.status,
    MemberStatus_eqb.
  destruct (Z.eqb_spec 1 c), (Z.eqb_spec 1 u), (Z.eqb_spec 2 u);
    simpl; lia.
Defined.

Lemma ledger_session_parties : parties_are_members ledger_session.
Proof.
  intros chat [<-|[]]. split; eexists; reflexivity.
Defined.

Lemma ledger_session_references : members_reference_chats ledger_session.
Proof.
  intros m [<-|[<-|[]]]; simpl; auto.
Defined.


Lemma create_private_chat_again_witness :
  exists db',
    create_private_chat 100 fresh_session 1 2 = (Ok legacy_chat, db')
    /\ create_private_chat 140 db' 2 1 = (Ok legacy_chat, db').
Proof.
  eexists. split; [reflexivity|].
  destruct (create_private_chat_again
              100 140 fresh_session 1 2 legacy_chat _ eq_refl)
    as [_ [Hswap _]].
  exact (Hswap alice eq_refl).
Defined.

Lemma create_private_chat_keeps_invariants_witness :
  at_most_one_active (snd (create_private_chat 130 ledger_session 3 1))
  /\ members_reference_chats
       (snd (create_private_chat 130 ledger_session 3 1)).
Proof.
  exact (create_private_chat_keeps_invariants
           130 ledger_session 3 1
           ledger_session_at_most_one_active ledger_session_references).
Defined.

Lemma add_member_then_member_witness :
  exists member db',
    add_member_to_chat 130 legacy_session 1 3 "admin" = (Ok member, db')
    /\ ChatMember.role member = PARTICIPANT
    /\ is_user_in_chat 140 db' 1 3 = (true, db').
Proof.
  eexists. eexists. split; [reflexivity|]. split; [reflexivity|].
  destruct (add_member_then_member
              130 140 legacy_session 1 3 "admin" _ _ eq_refl)
    as [_ [Hmember _]].
  exact Hmember.
Defined.


Lemma get_user_chats_result_witness :
  In legacy_chat (fst (get_user_chats 130 legacy_session 2))
  /\ ~ In legacy_chat (fst (get_user_chats 130 legacy_session 3)).
Proof.
  assert (NoDup (map Chat.id (chats legacy_session))) as Hkey
      by (repeat constructor; simpl; tauto).
  split.
  - apply (get_user_chats_result 130 legacy_session 2 Hkey).
    split; [now left|]. right; right; reflexivity.
  - intros Hin.
    apply (get_user_chats_result 130 legacy_session 3 Hkey) in Hin.
    destruct Hin as [_ [[m [[] _]]|[H|H]]]; discriminate.
Defined.


Lemma get_chat_participants_endpoint_lists_caller_witness :
  exists listed,
    fst (get_chat_participants_endpoint 130 legacy_session 1 alice)
    = Ok listed
    /\ In alice listed.
Proof.
  destruct (get_chat_participants_endpoint_lists_caller
              130 legacy_session 1 alice) as [_ Hmember].
  - now left.
  - destruct (Hmember eq_refl) as [listed [Hok [Hin _]]].
    now exists listed.
Defined.

Lemma sent_message_is_listed_first_witness :
  get_chat_messages
    (snd (send_message 130 ledger_session (MessageData.mk 1 "yo" None) 2))
    1 0 50
  = [Message.mk 3 "yo" TEXT 2 1 130 None false; greeting].
Proof.
  apply (sent_message_is_listed_first
           130 ledger_session (MessageData.mk 1 "yo" None) 2 _ _ 49 eq_refl).
  intros m [<-|[<-|[]]] _; simpl; lia.
Defined.

Lemma ledger_session_message_ids : message_ids_unique ledger_session.
Proof.
  unfold message_ids_unique; simpl.
  repeat constructor; simpl; intuition discriminate.
Defined.

Lemma deleted_message_is_not_listed_witness :
  Forall (fun m => Message.id m <> 1)
         (get_chat_messages
            (snd (delete_message 130 ledger_session 1 1)) 1 0 50).
Proof.
  apply Forall_forall.
  exact (deleted_message_is_not_listed
           130 ledger_session 1 1 true _
           ledger_session_message_ids eq_refl 1 0%nat 50%nat).
Defined.

Lemma deleted_message_cannot_be_edited_witness :
  fst (edit_message 140 (snd (delete_message 130 ledger_session 1 1))
                    1 "hello" 1)
  = Raise (mkHTTPException HTTP_400_BAD_REQUEST
                           "Cannot edit deleted message").
Proof.
  destruct (deleted_message_cannot_be_edited
              130 140 ledger_session 1 1 true _ "hello" 1 eq_refl)
    as [Hauthor _].
  exact (f_equal fst (Hauthor eq_refl)).
Defined.

Lemma upload_same_name_same_second_witness :
  exists att1 db1 att2 db2,
    upload_file 130 "20240101_120000" fresh_session small_upload 1
    = (Ok att1, db1)
    /\ upload_file 130 "20240101_120000" db1
                   (UploadFile.mk "Notes.TXT" (Some 40) None 40) 2
       = (Ok att2, db2)
    /\ FileAttachment.file_size att1 = 12
    /\ getsize (FileAttachment.file_path att1) (uploads db2) = 40.
Proof.
  do 4 eexists. split; [reflexivity|]. split; [reflexivity|].
  destruct (upload_same_name_same_second
              130 130 "20240101_120000" fresh_session small_upload
              (UploadFile.mk "Notes.TXT" (Some 40) None 40) 1 2
              _ _ _ _ eq_refl eq_refl eq_refl)
    as [_ [_ [_ [Hsize [Hdisk _]]]]].
  split; [exact Hsize | exact Hdisk].
Defined.

Lemma accepted_upload_file_name_witness :
  exists stem ext,
    "Notes.TXT"%string = (stem ++ ext)%string
    /\ stem <> EmptyString
    /\ In (lower ext) ALLOWED_EXTENSIONS.
Proof.
  exact (accepted_upload_file_name
           130 "20240101_120000" fresh_session small_upload 1 _ _ eq_refl).
Defined.

Lemma fresh_session_users_unique : users_unique fresh_session.
Proof.
  split; simpl; repeat constructor; simpl; intuition discriminate.
Defined.

Lemma register_keeps_users_unique_witness :
  users_unique (snd (register sample_hash fresh_session dave_form)).
Proof.
  exact (proj1 (register_keeps_users_unique
                  sample_hash fresh_session dave_form
                  fresh_session_users_unique)).
Defined.

Lemma add_token_to_blacklist_revokes_witness :
  exists db',
    add_token_to_blacklist 130 sample_decode "alice-token" revocation_session
    = Committed db'
    /\ get_current_user sample_decode "alice-token" revocation_session
       = Ok alice
    /\ get_current_user sample_decode "alice-token" db'
       = Raise credentials_exception.
Proof.
  eexists. split; [reflexivity|]. split; [reflexivity|].
  destruct (add_token_to_blacklist_revokes
              130 140 sample_decode sample_decode "alice-token"
              revocation_session _ eq_refl) as [_ [_ [Hraise _]]].
  exact Hraise.
Defined.

Lemma add_token_to_blacklist_other_tokens_witness :
  exists db',
    add_token_to_blacklist 130 sample_decode "alice-token" revocation_session
    = Committed db'
    /\ get_current_user sample_decode "bob-token" db'
       = get_current_user sample_decode "bob-token" revocation_session.
Proof.
  eexists. split; [reflexivity|].
  destruct (add_token_to_blacklist_other_tokens
              130 sample_decode sample_decode "alice-token" "bob-token"
              revocation_session _ eq_refl) as [_ [_ Hsame]].
  - discriminate.
  - exact Hsame.
Defined.

Lemma create_private_chat_keeps_parties_witness :
  parties_are_members (snd (create_private_chat 130 ledger_session 3 1)).
Proof.
  exact (proj1 (create_private_chat_keeps_parties
                  130 ledger_session 3 1 ledger_session_parties)).
Defined.

(** X26.  [get_chat_messages_endpoint] answers 403 to a caller who is
    not a member and writes nothing.  A member receives the page as it
    was before the call: the only thing the call may write is the
    caller's own membership row, which changes no listing. *)
Theorem get_chat_messages_endpoint_outcomes
        (now : Z) (db : Session) (chat_id : Z) (skip limit : nat)
        (current_user : User.t) :
  let user_id := User.id current_user in
  let r := get_chat_messages_endpoint now db chat_id skip limit current_user
  in
  (fst (is_user_in_chat now db chat_id user_id) = false ->
   r = (Raise (mkHTTPException HTTP_403_FORBIDDEN
                               "You are not a member of this chat"), db))
  /\ (fst (is_user_in_chat now db chat_id user_id) = true ->
      r = (Ok (get_chat_messages db chat_id skip limit),
           _ensure_user_membership now db chat_id user_id))
  /\ (forall chat skip' limit',
        get_chat_messages (snd r) chat skip' limit'
        = get_chat_messages db chat skip' limit').
Proof.
  intros user_id r. subst r user_id.
  unfold get_chat_messages_endpoint.
  rewrite is_user_in_chat_result; simpl.
  destruct (member_view db chat_id (User.id current_user)); simpl.
  - split; [discriminate|].
    unfold get_chat_messages. rewrite ensure_messages.
    split; [reflexivity|]. reflexivity.
  - split; [reflexivity|]. split; [discriminate | reflexivity].
Qed.

(** * Outcomes in terms of the stored rows *)

(** ** Lookups by primary key *)

Lemma find_unique_key {A} (key : A -> Z) (l : list A) (x : A) :
  NoDup (map key l) -> In x l ->
  find (fun y => key y =? key x) l = Some x.
Proof.
  intros Hkey Hin.
  destruct (find_exists (fun y => key y =? key x) l x Hin (Z.eqb_refl _))
    as [y Hy].
  rewrite Hy. f_equal. apply find_some in Hy. destruct Hy as [Hy Hk].
  apply Z.eqb_eq in Hk. exact (NoDup_map_injective key l y x Hkey Hy Hin Hk).
Qed.

Lemma find_absent_key {A} (key : A -> Z) (l : list A) (k : Z) :
  (forall x, In x l -> key x <> k) ->
  find (fun y => key y =? k) l = None.
Proof.
  intros Habsent.
  destruct (find (fun y => key y =? k) l) as [y|] eqn:E; [|reflexivity].
  apply find_some in E. destruct E as [Hin Hk]. apply Z.eqb_eq in Hk.
  now apply Habsent in Hin.
Qed.

Lemma get_chat_of_stored db chat :
  NoDup (map Chat.id (chats db)) -> In chat (chats db) ->
  get_chat db (Chat.id chat) = Some chat.
Proof. intros Hkey Hin. exact (find_unique_key Chat.id _ _ Hkey Hin). Qed.

Lemma get_message_of_stored db m :
  message_ids_unique db -> In m (messages db) ->
  get_message db (Message.id m) = Some m.
Proof. intros Hkey Hin. exact (find_unique_key Message.id _ _ Hkey Hin). Qed.

Lemma get_message_absent db message_id :
  (forall m, In m (messages db) -> Message.id m <> message_id) ->
  get_message db message_id = None.
Proof. exact (find_absent_key Message.id _ _). Qed.

(** With unique ids the UPDATE touches the row of that id and no
    other. *)
Lemma update_message_replaces message_id m' l :
  NoDup (map Message.id l) ->
  update_message message_id m' l =
  map (fun x => if Message.id x =? message_id then m' else x) l.
Proof.
  induction l as [|y l IH]; simpl; intros Hkey; [reflexivity|].
  apply NoDup_cons_iff in Hkey. destruct Hkey as [Hy Hrest].
  destruct (Z.eqb_spec (Message.id y) message_id) as [Hid|Hid].
  - f_equal. rewrite <- (map_id l) at 1. apply map_ext_in.
    intros x Hx.
    destruct (Z.eqb_spec (Message.id x) message_id) as [Hx'|Hx'];
      [|reflexivity].
    exfalso. apply Hy. rewrite Hid, <- Hx'. now apply in_map.
  - f_equal. now apply IH.
Qed.

Lemma is_active_member_fields chat_id user_id m :
  is_active_member chat_id user_id m = true <->
  ChatMember.chat_id m = chat_id
  /\ ChatMember.user_id m = user_id
  /\ ChatMember.status m = ACTIVE.
Proof.
  unfold is_active_member.
  rewrite !andb_true_iff, !Z.eqb_eq, MemberStatus_eqb_eq. tauto.
Qed.

Lemma member_view_of_stored_row db chat_id user_id m :
  In m (chat_members db) ->
  ChatMember.chat_id m = chat_id ->
  ChatMember.user_id m = user_id ->
  ChatMember.status m = ACTIVE ->
  exists m', query_active_member db chat_id user_id = Some m'.
Proof.
  intros Hin Hc Hu Hs. unfold query_active_member.
  apply (find_exists _ _ m Hin). now apply is_active_member_fields.
Qed.

Lemma member_view_of_stored_party db chat user_id :
  NoDup (map Chat.id (chats db)) ->
  In chat (chats db) ->
  Chat.creator_id chat = user_id \/ Chat.recipient_id chat = user_id ->
  member_view db (Chat.id chat) user_id = true.
Proof.
  intros Hkey Hin Hrole. unfold member_view.
  destruct (query_active_member db (Chat.id chat) user_id); [reflexivity|].
  rewrite (get_chat_of_stored _ _ Hkey Hin).
  now apply implicit_member_test.
Qed.

Lemma member_view_of_stranger db chat_id user_id :
  (forall m, In m (chat_members db) ->
             ~ (ChatMember.chat_id m = chat_id
                /\ ChatMember.user_id m = user_id
                /\ ChatMember.status m = ACTIVE)) ->
  (forall chat, In chat (chats db) -> Chat.id chat = chat_id ->
                Chat.creator_id chat <> user_id
                /\ Chat.recipient_id chat <> user_id) ->
  member_view db chat_id user_id = false.
Proof.
  intros Hrows Hchats. unfold member_view.
  destruct (query_active_member db chat_id user_id) as [m|] eqn:E.
  - exfalso. unfold query_active_member in E. apply find_some in E.
    destruct E as [Hin Hp]. apply is_active_member_fields in Hp.
    exact (Hrows m Hin Hp).
  - destruct (get_chat db chat_id) as [chat|] eqn:Hchat; [|reflexivity].
    destruct (get_chat_stored _ _ _ Hchat) as [Hin Hid].
    destruct (Hchats chat Hin Hid) as [Hc Hr].
    apply Z.eqb_neq in Hc, Hr. now rewrite Hc, Hr.
Qed.

(** ** Sending *)

(** C5.  [send_message] is refused with 403 exactly when
    [is_user_in_chat] answers [False] in the same session, and a refusal
    writes nothing.  In terms of the tables: a user with an ACTIVE row
    of the chat is accepted; with chat ids a primary key, the creator
    and the recipient of a stored chat are accepted with or without
    membership rows (and hold an ACTIVE row afterwards); a user with no
    ACTIVE row who is party of no stored chat of that id is refused.  An
    accepted message is appended with [is_deleted = False] and no
    [updated_at]. *)
Theorem send_message_forbidden_iff_not_member
        (now : Z) (db : Session) (message_data : MessageData.t)
        (author_id : Z) :
  let chat_id := MessageData.chat_id message_data in
  let r := send_message now db message_data author_id in
  let message :=
    Message.mk (next_id (map Message.id (messages db)))
               (MessageData.content message_data)
               (match MessageData.message_type message_data with
                | Some t => t
                | None => TEXT
                end)
               author_id chat_id now None false in
  (fst (is_user_in_chat now db chat_id author_id) = false <->
   exists e, fst r = Raise e /\ Forbidden e)
  /\ (fst (is_user_in_chat now db chat_id author_id) = false ->
      r = (Raise (mkHTTPException HTTP_403_FORBIDDEN
                                 "You are not a member of this chat"), db))
  /\ (fst (is_user_in_chat now db chat_id author_id) = true ->
      exists message,
        fst r = Ok message
        /\ Message.is_deleted message = false
        /\ Message.updated_at message = None
        /\ Message.author_id message = author_id
        /\ Message.chat_id message = chat_id
        /\ Message.content message = MessageData.content message_data
        /\ messages (snd r) = messages db ++ [message])
  /\ (forall chat,
        get_chat db chat_id = Some chat ->
        Chat.creator_id chat = author_id
        \/ Chat.recipient_id chat = author_id ->
        exists message, fst r = Ok message)
  /\ (NoDup (map Chat.id (chats db)) ->
      forall chat,
        In chat (chats db) ->
        Chat.id chat = chat_id ->
        Chat.creator_id chat = author_id
        \/ Chat.recipient_id chat = author_id ->
        fst r = Ok message
        /\ messages (snd r) = messages db ++ [message]
        /\ exists m, In m (chat_members (snd r))
                     /\ ChatMember.chat_id m = chat_id
                     /\ ChatMember.user_id m = author_id
                     /\ ChatMember.status m = ACTIVE)
  /\ (forall m,
        In m (chat_members db) ->
        ChatMember.chat_id m = chat_id ->
        ChatMember.user_id m = author_id ->
        ChatMember.status m = ACTIVE ->
        r = (Ok message, set_messages db (messages db ++ [message])))
  /\ ((forall m, In m (chat_members db) ->
                 ~ (ChatMember.chat_id m = chat_id
                    /\ ChatMember.user_id m = author_id
                    /\ ChatMember.status m = ACTIVE)) ->
      (forall chat, In chat (chats db) -> Chat.id chat = chat_id ->
                    Chat.creator_id chat <> author_id
                    /\ Chat.recipient_id chat <> author_id) ->
      r = (Raise (mkHTTPException HTTP_403_FORBIDDEN
                                 "You are not a member of this chat"), db)).
Proof.
  intros chat_id r message.
  pose proof (send_message_by_check now db message_data author_id) as Hcheck.
  cbv zeta in Hcheck. fold chat_id r in Hcheck.
  destruct Hcheck as [H1 [H2 [H3 H4]]].
  assert (member_view db chat_id author_id = true ->
          r = (Ok message,
               set_messages
                 (_ensure_user_membership now db chat_id author_id)
                 (messages db ++ [message]))) as Haccept.
  { intros Hview. subst r. rewrite send_message_unfold; cbv zeta.
    fold chat_id. now rewrite Hview. }
  split; [exact H1|]. split; [exact H2|]. split; [exact H3|].
  split; [exact H4|]. split; [|split].
  - intros Hkey chat Hin Hid Hrole.
    rewrite (Haccept (eq_ind _ (fun c => member_view db c author_id = true)
                             (member_view_of_stored_party
                                db chat author_id Hkey Hin Hrole) _ Hid)).
    simpl. split; [reflexivity|]. split; [reflexivity|].
    destruct (ensure_then_query now db chat_id author_id) as [m Hm].
    unfold query_active_member in Hm. apply find_some in Hm.
    destruct Hm as [Hm Hp]. apply is_active_member_fields in Hp.
    now exists m.
  - intros m Hin Hc Hu Hs.
    destruct (member_view_of_stored_row db chat_id author_id m Hin Hc Hu Hs)
      as [m' Hm'].
    rewrite (Haccept (member_view_of_row _ _ _ _ Hm')).
    now rewrite (ensure_present _ _ _ _ _ Hm').
  - intros Hrows Hchats. apply H2. rewrite is_user_in_chat_view.
    now apply member_view_of_stranger.
Qed.

Lemma send_message_forbidden_iff_not_member_witness :
  chat_members legacy_session = []
  /\ fst (send_message 130 legacy_session (MessageData.mk 1 "hi" None) 2)
     = Ok (Message.mk 1 "hi" TEXT 2 1 130 None false)
  /\ send_message 130 legacy_session (MessageData.mk 1 "hi" None) 3
     = (Raise (mkHTTPException HTTP_403_FORBIDDEN
                               "You are not a member of this chat"),
        legacy_session)
  /\ fst (send_message 130 ledger_session (MessageData.mk 1 "hi" None) 2)
     = Ok (Message.mk 3 "hi" TEXT 2 1 130 None false).
Proof.
  split; [reflexivity|].
  destruct (send_message_forbidden_iff_not_member
              130 legacy_session (MessageData.mk 1 "hi" None) 2)
    as [_ [_ [_ [_ [Hparty _]]]]].
  destruct (send_message_forbidden_iff_not_member
              130 legacy_session (MessageData.mk 1 "hi" None) 3)
    as [_ [_ [_ [_ [_ [_ Hstranger]]]]]].
  destruct (send_message_forbidden_iff_not_member
              130 ledger_session (MessageData.mk 1 "hi" None) 2)
    as [_ [_ [_ [_ [_ [Hrow _]]]]]].
  split; [|split].
  - refine (proj1 (Hparty _ legacy_chat _ eq_refl _)).
    + repeat constructor; simpl; tauto.
    + now left.
    + right; reflexivity.
  - apply Hstranger.
    + intros m [].
    + intros chat [<-|[]] _. split; discriminate.
  - refine (f_equal fst
              (Hrow (ChatMember.mk 2 2 1 PARTICIPANT ACTIVE 100) _
                    eq_refl eq_refl eq_refl)).
    right; left; reflexivity.
Defined.

(** ** Editing *)

(** C6.  [edit_message] answers 404 when no stored message has the id.
    With message ids a primary key, for the stored message of that id it
    answers 403 when the caller is not the author (whatever the caller's
    membership) and 400 when the author edits a deleted message; none of
    these writes.  Otherwise that row gets the new content and
    [updated_at = now] and keeps every other column, and every other
    row and table is as before. *)
Theorem edit_message_outcomes
        (now : Z) (db : Session) (message_id : Z) (new_content : string)
        (user_id : Z) :
  let r := edit_message now db message_id new_content user_id in
  (get_message db message_id = None ->
   r = (Raise (mkHTTPException HTTP_404_NOT_FOUND "Message not found"), db)
   /\ exists e, fst r = Raise e /\ NotFound e)
  /\ (forall m,
        get_message db message_id = Some m ->
        Message.author_id m <> user_id ->
        r = (Raise (mkHTTPException HTTP_403_FORBIDDEN
                                    "You can only edit your own messages"),
             db)
        /\ exists e, fst r = Raise e /\ Forbidden e)
  /\ (forall m,
        get_message db message_id = Some m ->
        Message.author_id m = user_id ->
        Message.is_deleted m = true ->
        r = (Raise (mkHTTPException HTTP_400_BAD_REQUEST
                                    "Cannot edit deleted message"), db)
        /\ exists e, fst r = Raise e /\ InvalidState e)
  /\ (forall m,
        get_message db message_id = Some m ->
        Message.author_id m = user_id ->
        Message.is_deleted m = false ->
        let m' :=
          Message.mk (Message.id m) new_content (Message.message_type m)
                     (Message.author_id m) (Message.chat_id m)
                     (Message.created_at m) (Some now) (Message.is_deleted m)
        in
        fst r = Ok m'
        /\ get_message (snd r) message_id = Some m'
        /\ (forall k, k <> message_id ->
                      get_message (snd r) k = get_message db k)
        /\ List.length (messages (snd r)) = List.length (messages db)
        /\ users (snd r) = users db
        /\ chats (snd r) = chats db
        /\ chat_members (snd r) = chat_members db
        /\ file_attachments (snd r) = file_attachments db)
  /\ ((forall m, In m (messages db) -> Message.id m <> message_id) ->
      r = (Raise (mkHTTPException HTTP_404_NOT_FOUND "Message not found"),
           db))
  /\ (message_ids_unique db ->
      forall m,
        In m (messages db) ->
        Message.id m = message_id ->
        (Message.author_id m <> user_id ->
         r = (Raise (mkHTTPException HTTP_403_FORBIDDEN
                                     "You can only edit your own messages"),
              db))
        /\ (Message.author_id m = user_id ->
            Message.is_deleted m = true ->
            r = (Raise (mkHTTPException HTTP_400_BAD_REQUEST
                                        "Cannot edit deleted message"), db))
        /\ (Message.author_id m = user_id ->
            Message.is_deleted m = false ->
            let m' :=
              Message.mk (Message.id m) new_content (Message.message_type m)
                         (Message.author_id m) (Message.chat_id m)
                         (Message.created_at m) (Some now) false in
            fst r = Ok m'
            /\ messages (snd r)
               = map (fun x => if Message.id x =? message_id then m' else x)
                     (messages db)
            /\ In m' (messages (snd r))
            /\ users (snd r) = users db
            /\ chats (snd r) = chats db
            /\ chat_members (snd r) = chat_members db
            /\ file_attachments (snd r) = file_attachments db
            /\ uploads (snd r) = uploads db)).
Proof.
  intros r.
  pose proof (edit_message_by_lookup now db message_id new_content user_id)
    as Hlookup.
  cbv zeta in Hlookup. fold r in Hlookup.
  destruct Hlookup as [H404 [H403 [H400 Hok]]].
  split; [exact H404|]. split; [exact H403|]. split; [exact H400|].
  split; [exact Hok|]. split.
  - intros Habsent. exact (proj1 (H404 (get_message_absent _ _ Habsent))).
  - intros Hkey m Hin Hid.
    pose proof (get_message_of_stored _ _ Hkey Hin) as Hget.
    rewrite Hid in Hget. split; [|split].
    + intros Hother. exact (proj1 (H403 m Hget Hother)).
    + intros Hauthor Hdeleted. exact (proj1 (H400 m Hget Hauthor Hdeleted)).
    + intros Hauthor Hlive m'.
      assert (r = (Ok m',
                   set_messages db
                     (update_message message_id m' (messages db)))) as Hr.
      { subst r m'. unfold edit_message. rewrite Hget.
        apply Z.eqb_eq in Hauthor. now rewrite Hauthor, Hlive. }
      rewrite Hr. simpl. split; [reflexivity|].
      rewrite (update_message_replaces _ _ _ Hkey).
      split; [reflexivity|]. split; [|auto 6].
      apply in_map_iff. exists m. split; [|exact Hin].
      apply Z.eqb_eq in Hid. now rewrite Hid.
Qed.

Lemma edit_message_outcomes_witness :
  (exists m, query_active_member ledger_session 1 2 = Some m)
  /\ edit_message 130 ledger_session 1 "hello" 2
     = (Raise (mkHTTPException HTTP_403_FORBIDDEN
                               "You can only edit your own messages"),
        ledger_session)
  /\ edit_message 130 ledger_session 2 "hello" 1
     = (Raise (mkHTTPException HTTP_400_BAD_REQUEST
                               "Cannot edit deleted message"),
        ledger_session)
  /\ edit_message 130 ledger_session 7 "hello" 1
     = (Raise (mkHTTPException HTTP_404_NOT_FOUND "Message not found"),
        ledger_session)
  /\ messages (snd (edit_message 130 ledger_session 1 "hello" 1))
     = [Message.mk 1 "hello" TEXT 1 1 110 (Some 130) false; retracted].
Proof.
  split; [eexists; reflexivity|].
  destruct (edit_message_outcomes 130 ledger_session 1 "hello" 2)
    as [_ [_ [_ [_ [_ Hother]]]]].
  destruct (edit_message_outcomes 130 ledger_session 2 "hello" 1)
    as [_ [_ [_ [_ [_ Hdeleted]]]]].
  destruct (edit_message_outcomes 130 ledger_session 7 "hello" 1)
    as [_ [_ [_ [_ [Habsent _]]]]].
  destruct (edit_message_outcomes 130 ledger_session 1 "hello" 1)
    as [_ [_ [_ [_ [_ Hauthor]]]]].
  split; [|split; [|split]].
  - refine (proj1 (Hother ledger_session_message_ids greeting _ eq_refl) _).
    + now left.
    + discriminate.
  - refine (proj1 (proj2 (Hdeleted ledger_session_message_ids retracted
                                   _ eq_refl)) eq_refl eq_refl).
    right; left; reflexivity.
  - apply Habsent. intros m [<-|[<-|[]]]; discriminate.
  - refine (proj1 (proj2 (proj2 (proj2 (Hauthor ledger_session_message_ids
                                                greeting _ eq_refl))
                                eq_refl eq_refl))).
    now left.
Defined.

(** ** Soft deletion *)

(** C7.  [delete_message] answers 404 when no stored message has the
    id.  With message ids a primary key, for the stored message of that
    id it answers 403 when the caller is not the author (whatever the
    caller's membership), without writing; for the author it answers
    [True] and that row is flagged deleted with its content kept, every
    other row being as before.  On a row already flagged it answers
    [True] again and writes nothing, so a second deletion leaves the
    session of the first. *)
Theorem delete_message_outcomes
        (now : Z) (db : Session) (message_id user_id : Z) :
  let r := delete_message now db message_id user_id in
  (get_message db message_id = None ->
   r = (Raise (mkHTTPException HTTP_404_NOT_FOUND "Message not found"), db)
   /\ exists e, fst r = Raise e /\ NotFound e)
  /\ (forall m,
        get_message db message_id = Some m ->
        Message.author_id m <> user_id ->
        r = (Raise (mkHTTPException HTTP_403_FORBIDDEN
                                    "You can only delete your own messages"),
             db)
        /\ exists e, fst r = Raise e /\ Forbidden e)
  /\ (forall m,
        get_message db message_id = Some m ->
        Message.author_id m = user_id ->
        fst r = Ok true
        /\ (exists m',
              get_message (snd r) message_id = Some m'
              /\ Message.is_deleted m' = true
              /\ Message.id m' = Message.id m
              /\ Message.content m' = Message.content m
              /\ Message.author_id m' = Message.author_id m
              /\ Message.chat_id m' = Message.chat_id m
              /\ Message.created_at m' = Message.created_at m)
        /\ (forall k, k <> message_id ->
                      get_message (snd r) k = get_message db k)
        /\ (Message.is_deleted m = true -> r = (Ok true, db))
        /\ (forall now',
              delete_message now' (snd r) message_id user_id
              = (Ok true, snd r)))
  /\ ((forall m, In m (messages db) -> Message.id m <> message_id) ->
      r = (Raise (mkHTTPException HTTP_404_NOT_FOUND "Message not found"),
           db))
  /\ (message_ids_unique db ->
      forall m,
        In m (messages db) ->
        Message.id m = message_id ->
        (Message.author_id m <> user_id ->
         r = (Raise (mkHTTPException
                       HTTP_403_FORBIDDEN
                       "You can only delete your own messages"), db))
        /\ (Message.author_id m = user_id ->
            let m' :=
              if Message.is_deleted m then m
              else Message.mk (Message.id m) (Message.content m)
                              (Message.message_type m) (Message.author_id m)
                              (Message.chat_id m) (Message.created_at m)
                              (Some now) true in
            fst r = Ok true
            /\ Message.is_deleted m' = true
            /\ messages (snd r)
               = map (fun x => if Message.id x =? message_id then m' else x)
                     (messages db)
            /\ In m' (messages (snd r))
            /\ users (snd r) = users db
            /\ chats (snd r) = chats db
            /\ chat_members (snd r) = chat_members db
            /\ file_attachments (snd r) = file_attachments db
            /\ (Message.is_deleted m = true -> snd r = db)
            /\ (forall now',
                  delete_message now' (snd r) message_id user_id
                  = (Ok true, snd r)))).
Proof.
  intros r.
  pose proof (delete_message_by_lookup now db message_id user_id) as Hlookup.
  cbv zeta in Hlookup. fold r in Hlookup.
  destruct Hlookup as [H404 [H403 Hok]].
  split; [exact H404|]. split; [exact H403|]. split; [exact Hok|]. split.
  - intros Habsent. exact (proj1 (H404 (get_message_absent _ _ Habsent))).
  - intros Hkey m Hin Hid.
    pose proof (get_message_of_stored _ _ Hkey Hin) as Hget.
    rewrite Hid in Hget. split.
    + intros Hother. exact (proj1 (H403 m Hget Hother)).
    + intros Hauthor m'.
      destruct (Hok m Hget Hauthor) as [_ [_ [_ [Hsame Hagain]]]].
      assert (r = (Ok true,
                   set_messages db
                     (update_message message_id m' (messages db)))) as Hr.
      { subst r m'. unfold delete_message. rewrite Hget.
        apply Z.eqb_eq in Hauthor. now rewrite Hauthor. }
      assert (Message.is_deleted m' = true) as Hflag
          by (subst m'; now destruct (Message.is_deleted m) eqn:E).
      split; [now rewrite Hr|]. split; [exact Hflag|].
      split; [rewrite Hr; simpl; exact (update_message_replaces _ _ _ Hkey)|].
      split.
      { rewrite Hr; simpl. rewrite (update_message_replaces _ _ _ Hkey).
        apply in_map_iff. exists m. split; [|exact Hin].
        apply Z.eqb_eq in Hid. now rewrite Hid. }
      split; [now rewrite Hr|]. split; [now rewrite Hr|].
      split; [now rewrite Hr|]. split; [now rewrite Hr|].
      split; [|exact Hagain].
      intros Hdeleted. now rewrite (Hsame Hdeleted).
Qed.

Lemma delete_message_outcomes_witness :
  (exists m, query_active_member ledger_session 1 2 = Some m)
  /\ delete_message 130 ledger_session 1 2
     = (Raise (mkHTTPException HTTP_403_FORBIDDEN
                               "You can only delete your own messages"),
        ledger_session)
  /\ delete_message 130 ledger_session 7 1
     = (Raise (mkHTTPException HTTP_404_NOT_FOUND "Message not found"),
        ledger_session)
  /\ messages (snd (delete_message 130 ledger_session 1 1))
     = [Message.mk 1 "hi" TEXT 1 1 110 (Some 130) true; retracted]
  /\ snd (delete_message 130 ledger_session 2 1) = ledger_session.
Proof.
  split; [eexists; reflexivity|].
  destruct (delete_message_outcomes 130 ledger_session 1 2)
    as [_ [_ [_ [_ Hother]]]].
  destruct (delete_message_outcomes 130 ledger_session 7 1)
    as [_ [_ [_ [Habsent _]]]].
  destruct (delete_message_outcomes 130 ledger_session 1 1)
    as [_ [_ [_ [_ Hauthor]]]].
  destruct (delete_message_outcomes 130 ledger_session 2 1)
    as [_ [_ [_ [_ Hagain]]]].
  split; [|split; [|split]].
  - refine (proj1 (Hother ledger_session_message_ids greeting _ eq_refl) _).
    + now left.
    + discriminate.
  - apply Habsent. intros m [<-|[<-|[]]]; discriminate.
  - destruct (proj2 (Hauthor ledger_session_message_ids greeting
                             (or_introl eq_refl) eq_refl) eq_refl)
      as [_ [_ [Hrows _]]].
    exact Hrows.
  - destruct (proj2 (Hagain ledger_session_message_ids retracted
                            (or_intror (or_introl eq_refl)) eq_refl) eq_refl)
      as [_ [_ [_ [_ [_ [_ [_ [_ [Hsame _]]]]]]]]].
    exact (Hsame eq_refl).
Defined.

(** ** Attaching *)


